(** * homework_bot: the poll / validate / diff / notify loop of [homework.py]

    A shallow embedding of [homework.py] and the properties of its
    specification.

    Python values are the values [json.loads] produces ([json]); JSON numbers
    are restricted to integers.  A Python [str] is kept as the list of bytes
    of its UTF-8 encoding.  Functions that log, call the endpoint, call the
    bot or raise live in the monad [M]: a state monad over [world] (the
    module-level dict [homework_statuses] and the trace of external effects)
    whose results are either a value or a raised exception.  The endpoint and
    the bot are external: their behaviour during one iteration of the loop is
    an [env], and what the constructor [telegram.Bot] of the library does
    with a token is a parameter of [main].  The calls of [logging] and
    [time.sleep] are taken to return. *)

From stdpp Require Import gmap strings list fin_maps pretty.

Set Warnings "-register-all".

Open Scope string_scope.
Open Scope Z_scope.

(** ** Python values *)

Inductive json : Type :=
  | JNull
  | JBool (b : bool)
  | JNum (n : Z)
  | JStr (s : string)
  | JList (l : list json)
  | JDict (d : list (string * json)).

(** [f'{type(x)}'] *)
Definition type_repr (x : json) : string :=
  match x with
  | JNull => "<class 'NoneType'>"
  | JBool _ => "<class 'bool'>"
  | JNum _ => "<class 'int'>"
  | JStr _ => "<class 'str'>"
  | JList _ => "<class 'list'>"
  | JDict _ => "<class 'dict'>"
  end.

Definition type_name (x : json) : string :=
  match x with
  | JNull => "NoneType"
  | JBool _ => "bool"
  | JNum _ => "int"
  | JStr _ => "str"
  | JList _ => "list"
  | JDict _ => "dict"
  end.

(** A decoded JSON object is kept as its list of bindings; a key is bound at
    most once in a Python dict, and lookup takes the first binding. *)
Fixpoint dict_get (d : list (string * json)) (k : string) : option json :=
  match d with
  | [] => None
  | (k', v) :: d' => if decide (k' = k) then Some v else dict_get d' k
  end.

Definition dict_has (d : list (string * json)) (k : string) : bool :=
  bool_decide (is_Some (dict_get d k)).

(** [x == s] for a [str] s *)
Definition eq_str (s : string) (x : json) : bool :=
  match x with
  | JStr t => bool_decide (t = s)
  | _ => false
  end.

(** [s in t] for two [str] *)
Definition substring_of (s t : string) : bool :=
  bool_decide (is_Some (String.index 0 s t)).

(** The values that can be keys of a dict: [None], [bool], [int], [str]
    (lists and dicts are unhashable). *)
Inductive scalar : Type :=
  | SNone
  | SBool (b : bool)
  | SInt (n : Z)
  | SStr (s : string).

Definition as_scalar (x : json) : option scalar :=
  match x with
  | JNull => Some SNone
  | JBool b => Some (SBool b)
  | JNum n => Some (SInt n)
  | JStr s => Some (SStr s)
  | JList _ | JDict _ => None
  end.

(** [f'{x}'] *)
Definition str_scalar (x : scalar) : string :=
  match x with
  | SNone => "None"
  | SBool true => "True"
  | SBool false => "False"
  | SInt n => pretty n
  | SStr s => s
  end.

(** Modelled from the spec: [StatusCodeError] is imported from the module
    [exceptions], which is not among the sources; it is the error of a
    response whose status code is not 200, an [Exception] whose text is the
    message it was built with.

    The other classes are those of Python, of [requests] and of [telegram];
    every one derives from [Exception].  [KeyError] keeps its argument, the
    others the text [str] gives for them. *)
Inductive exn : Type :=
  | TypeError (msg : string)
  | KeyError (arg : scalar)
  | IndexError (msg : string)
  | ValueError (msg : string)
  | StatusCodeError (msg : string)
  | RequestException (msg : string)
  | JSONDecodeError (msg : string)
  | TelegramError (msg : string)
  | InvalidToken (msg : string).

Inductive result (A : Type) : Type :=
  | Ok (a : A)
  | Raise (e : exn).
Arguments Ok {A} a.
Arguments Raise {A} e.

(** ** The world *)

Inductive logger_name := RootLogger | ModuleLogger.
Inductive level := DEBUG | ERROR | CRITICAL.

(** [telegram.Bot(token=...)]: the object the constructor of the library
    returns. *)
Record Bot := telegram_Bot { token : option string }.

Inductive event : Type :=
  | Log (l : logger_name) (lv : level) (msg : string)
  | HttpGet (authorization : string) (from_date : json)
  | BotSend (bot : Bot) (chat_id : option string) (text : string)
  | Sleep (seconds : Z).

(** Keys of a Python dict: [True == 1] and [False == 0] are the same key. *)
Inductive pykey : Type :=
  | KNone
  | KInt (n : Z)
  | KStr (s : string).

Global Instance pykey_eq_dec : EqDecision pykey.
Proof. solve_decision. Defined.

Global Instance pykey_countable : Countable pykey.
Proof.
  refine (inj_countable'
    (λ k, match k with
          | KNone => inl ()
          | KInt n => inr (inl n)
          | KStr s => inr (inr s)
          end)
    (λ x, match x with
          | inl _ => KNone
          | inr (inl n) => KInt n
          | inr (inr s) => KStr s
          end) _).
  by intros [].
Defined.

Record world := World {
  homework_statuses : gmap pykey string;
  trace : list event;
}.

(** [homework_statuses = {}] when the module is loaded. *)
Definition world0 : world := World ∅ [].

(** ** The monad of effects and exceptions

    A Python exception does not undo the effects that came before it: the
    world is threaded through a raise. *)

Definition M (A : Type) : Type := world → result A * world.

Definition ret {A} (a : A) : M A := λ w, (Ok a, w).

Definition raise {A} (e : exn) : M A := λ w, (Raise e, w).

Definition bind {A B} (m : M A) (k : A → M B) : M B :=
  λ w, match m w with
       | (Ok a, w') => k a w'
       | (Raise e, w') => (Raise e, w')
       end.

Notation "x <- m ;; k" := (bind m (λ x, k))
  (at level 100, m at next level, right associativity).
Notation "m ;;; k" := (bind m (λ _, k))
  (at level 100, right associativity).

Definition lift {A} (r : result A) : M A := λ w, (r, w).

Definition emit (ev : event) : M unit :=
  λ w, (Ok tt, World (homework_statuses w) (trace w ++ [ev])).

Definition get_statuses : M (gmap pykey string) :=
  λ w, (Ok (homework_statuses w), w).

Definition set_status (k : pykey) (v : string) : M unit :=
  λ w, (Ok tt, World (<[k := v]> (homework_statuses w)) (trace w)).

(** [try: body / except ...: / else: orelse].  The expression after
    [except] is evaluated when an exception reaches the clause.  It is either
    a class, which catches the exceptions it [matches], or, as in
    [except requests.RequestException():] (a call of the class), an
    exception instance: Python 3 then raises [TypeError] with the message
    [catching_instance], as it does for everything that is not a class
    deriving from [BaseException], and this error leaves the [try] statement
    without looking at the clauses below (the exception of the body is kept
    as its [__context__] only). *)
Inductive except_clause (A : Type) : Type :=
  | ExceptClass (matches : exn → bool) (handler : exn → M A)
  | ExceptInstance (handler : exn → M A).
Arguments ExceptClass {A} matches handler.
Arguments ExceptInstance {A} handler.

Definition catching_instance : string :=
  "catching classes that do not inherit from BaseException is not allowed".

Fixpoint dispatch {A} (clauses : list (except_clause A)) (err : exn) : M A :=
  match clauses with
  | [] => raise err
  | ExceptClass matches handler :: rest =>
      if matches err then handler err else dispatch rest err
  | ExceptInstance _ :: _ => raise (TypeError catching_instance)
  end.

Definition try_except_else {A B} (body : M A)
    (clauses : list (except_clause B)) (orelse : A → M B) : M B :=
  λ w, match body w with
       | (Ok a, w') => orelse a w'
       | (Raise err, w') => dispatch clauses err w'
       end.

Definition try_except {A} (body : M A) (clauses : list (except_clause A)) : M A :=
  try_except_else body clauses ret.

(** [except Exception] *)
Definition Exception (err : exn) : bool := true.

(** [logging.error], [logging.debug]: the root logger; [logger.debug],
    [logger.critical]: the logger of the module. *)
Definition logging_error (msg : string) : M unit := emit (Log RootLogger ERROR msg).
Definition logging_debug (msg : string) : M unit := emit (Log RootLogger DEBUG msg).
Definition logger_debug (msg : string) : M unit := emit (Log ModuleLogger DEBUG msg).
Definition logger_critical (msg : string) : M unit := emit (Log ModuleLogger CRITICAL msg).

(** ** Built-in operations on Python values *)

(** [k in x] for a [str] k *)
Definition py_contains (x : json) (k : string) : result bool :=
  match x with
  | JDict d => Ok (dict_has d k)
  | JStr t => Ok (substring_of k t)
  | JList l => Ok (existsb (eq_str k) l)
  | _ => Raise (TypeError ("argument of type '" ++ type_name x ++ "' is not iterable"))
  end.

(** [x[k]] for a [str] k *)
Definition py_getitem (x : json) (k : string) : result json :=
  match x with
  | JDict d =>
      match dict_get d k with
      | Some v => Ok v
      | None => Raise (KeyError (SStr k))
      end
  | JList _ => Raise (TypeError "list indices must be integers or slices, not str")
  | JStr _ => Raise (TypeError "string indices must be integers, not 'str'")
  | _ => Raise (TypeError ("'" ++ type_name x ++ "' object is not subscriptable"))
  end.

(** A byte 10xxxxxx continues a UTF-8 sequence. *)
Definition continuation (a : Ascii.ascii) : bool :=
  match a with
  | Ascii.Ascii _ _ _ _ _ _ b6 b7 => b7 && negb b6
  end.

Fixpoint utf8_length (s : string) : nat :=
  match s with
  | EmptyString => 0%nat
  | String a s' => if continuation a then utf8_length s' else S (utf8_length s')
  end.

Fixpoint continuation_bytes (s : string) : string :=
  match s with
  | String a s' => if continuation a then String a (continuation_bytes s') else EmptyString
  | EmptyString => EmptyString
  end.

(** [len(x)] *)
Definition py_len (x : json) : result nat :=
  match x with
  | JList l => Ok (length l)
  | JDict d => Ok (length d)
  | JStr s => Ok (utf8_length s)
  | _ => Raise (TypeError ("object of type '" ++ type_name x ++ "' has no len()"))
  end.

(** [x[0]] *)
Definition py_first (x : json) : result json :=
  match x with
  | JList (y :: _) => Ok y
  | JList [] => Raise (IndexError "list index out of range")
  | JStr (String a s) => Ok (JStr (String a (continuation_bytes s)))
  | JStr EmptyString => Raise (IndexError "string index out of range")
  | JDict _ => Raise (KeyError (SInt 0))
  | _ => Raise (TypeError ("'" ++ type_name x ++ "' object is not subscriptable"))
  end.

(** [[k for k in keys if k not in x]] *)
Fixpoint missing_in (x : json) (keys : list string) : result (list string) :=
  match keys with
  | [] => Ok []
  | k :: keys' =>
      match py_contains x k with
      | Raise e => Raise e
      | Ok b =>
          match missing_in x keys' with
          | Raise e => Raise e
          | Ok rest => Ok (if b then rest else k :: rest)
          end
      end
  end.

(** Truth value of an optional [str] ([os.getenv] gives [None] when the
    variable is not set): [None] and [''] are false. *)
Definition truthy (v : option string) : bool :=
  match v with
  | None => false
  | Some s => negb (bool_decide (s = EmptyString))
  end.

(** ** The environment *)

(** The three values read with [os.getenv] when the module is loaded. *)
Record config := Config {
  PRACTICUM_TOKEN : option string;
  TELEGRAM_TOKEN : option string;
  TELEGRAM_CHAT_ID : option string;
}.

(** What the endpoint answers to [requests.get]: the request fails with a
    [RequestException], or a response comes back whose body [.json()]
    decodes or not. *)
Inductive body : Type :=
  | Invalid (err : string)
  | Decoded (j : json).

Inductive http_outcome : Type :=
  | Unreachable (err : string)
  | Response (status_code : Z) (content : body).

(** The endpoint and the Telegram API during one iteration of the loop:
    [bot_api] tells whether [bot.send_message(chat_id, text)] delivers
    ([None]) or raises (the text of the error). *)
Record env := Env {
  endpoint : json → http_outcome;
  bot_api : Bot → option string → string → option string;
}.

Definition RETRY_PERIOD : Z := 600.

(** [HEADERS['Authorization']] *)
Definition authorization (cfg : config) : string :=
  "OAuth " ++ match PRACTICUM_TOKEN cfg with Some t => t | None => "None" end.

Definition HOMEWORK_VERDICTS : gmap string string :=
  <["approved" := "Работа проверена: ревьюеру всё понравилось. Ура!"]>
  (<["reviewing" := "Работа взята на проверку ревьюером."]>
  (<["rejected" := "Работа проверена: у ревьюера есть замечания."]> ∅)).

(** The character 34, a double quote. *)
Definition dquote : string :=
  String (Ascii.Ascii false true false false false true false false) EmptyString.

(** [requests.get(url=ENDPOINT, headers=HEADERS, params={'from_date': timestamp})] *)
Definition requests_get (e : env) (cfg : config) (timestamp : json) : M (Z * body) :=
  emit (HttpGet (authorization cfg) timestamp) ;;;
  match endpoint e timestamp with
  | Unreachable err => raise (RequestException err)
  | Response status_code content => ret (status_code, content)
  end.

(** [response.json()] *)
Definition response_json (response : Z * body) : M json :=
  match snd response with
  | Invalid err => raise (JSONDecodeError err)
  | Decoded j => ret j
  end.

(** [bot.send_message(chat_id, text)] *)
Definition bot_send_message (e : env) (bot : Bot) (chat_id : option string)
    (text : string) : M unit :=
  emit (BotSend bot chat_id text) ;;;
  match bot_api e bot chat_id text with
  | Some err => raise (TelegramError err)
  | None => ret tt
  end.

(** [time.sleep] *)
Definition time_sleep (seconds : Z) : M unit := emit (Sleep seconds).

(** A value that is used as a key of a dict is hashed first. *)
Definition hashable (x : json) : result scalar :=
  match as_scalar x with
  | Some v => Ok v
  | None => Raise (TypeError ("unhashable type: '" ++ type_name x ++ "'"))
  end.

Definition key_of (x : scalar) : pykey :=
  match x with
  | SNone => KNone
  | SBool b => KInt (if b then 1 else 0)
  | SInt n => KInt n
  | SStr s => KStr s
  end.

(** [HOMEWORK_VERDICTS.get(x)]: only a [str] is equal to one of its keys. *)
Definition verdict_of (x : scalar) : option (string * string) :=
  match x with
  | SStr s => (λ verdict, (s, verdict)) <$> HOMEWORK_VERDICTS !! s
  | _ => None
  end.

Definition is_dict (x : json) : bool :=
  match x with JDict _ => true | _ => false end.

Definition is_list (x : json) : bool :=
  match x with JList _ => true | _ => false end.

(** A list is true when it is not empty. *)
Definition nonempty {A} (l : list A) : bool :=
  match l with [] => false | _ => true end.

(** ** The program *)

Section Program.

(** [repr] of a [str], which [str] gives for a [KeyError] built from a
    message; a built-in of Python. *)
Variable py_repr : string → string.

Definition repr_scalar (x : scalar) : string :=
  match x with
  | SStr s => py_repr s
  | _ => str_scalar x
  end.

(** [f'{error}'] *)
Definition str_exn (error : exn) : string :=
  match error with
  | KeyError arg => repr_scalar arg
  | TypeError msg | IndexError msg | ValueError msg | StatusCodeError msg
  | RequestException msg | JSONDecodeError msg | TelegramError msg
  | InvalidToken msg => msg
  end.

Definition check_tokens (cfg : config) : bool :=
  let vars := [TELEGRAM_CHAT_ID cfg; TELEGRAM_TOKEN cfg; PRACTICUM_TOKEN cfg] in
  (fix loop (vars : list (option string)) : bool :=
     match vars with
     | [] => true
     | var :: vars' => if negb (truthy var) then false else loop vars'
     end) vars.

Definition send_message (e : env) (cfg : config) (bot : Bot) (message : string) : M unit :=
  try_except_else
    (bot_send_message e bot (TELEGRAM_CHAT_ID cfg) message)
    [ExceptClass Exception
       (λ error, logging_error ("Error sending message: " ++ str_exn error))]
    (λ _, logging_debug "Message sent").

(** The body of the [try] of [get_api_answer]. *)
Definition get_api_answer_try (e : env) (cfg : config) (timestamp : json) : M json :=
  response <- requests_get e cfg timestamp ;;
  if negb (bool_decide (fst response = 200)) then
    raise (StatusCodeError
             ("Status code is different from 200 : " ++ pretty (fst response)))
  else response_json response.

(** A function that ends without [return] gives [None]. *)
Definition get_api_answer (e : env) (cfg : config) (timestamp : json) : M json :=
  try_except
    (get_api_answer_try e cfg timestamp)
    [ExceptInstance
       (λ _, logging_error "Endpoint not available" ;;; ret JNull);
     ExceptClass Exception
       (λ error,
          logging_error ("Endpoint request error: " ++ str_exn error) ;;;
          ret JNull)].

Definition check_response (response : json) : M bool :=
  if negb (is_dict response) then
    let msg := "Incorrect type of API response: " ++ type_repr response in
    logging_error msg ;;;
    raise (TypeError msg)
  else
    let keys := ["homeworks"; "current_date"] in
    missing_keys <- lift (missing_in response keys) ;;
    if nonempty missing_keys then
      let msg := "Keys are missing: " ++ String.concat ", " missing_keys in
      logging_error msg ;;;
      raise (KeyError (SStr msg))
    else
      homeworks <- lift (py_getitem response "homeworks") ;;
      if negb (is_list homeworks) then
        let msg := "Incorrect type of homework: " ++ type_repr homeworks in
        logging_error msg ;;;
        raise (TypeError msg)
      else ret true.

Definition parse_status (homework : json) : M string :=
  let subkeys := ["status"; "homework_name"] in
  missing_subkeys <- lift (missing_in homework subkeys) ;;
  if nonempty missing_subkeys then
    let msg := "Subkeys are missing: " ++ String.concat ", " missing_subkeys in
    logging_error msg ;;;
    raise (KeyError (SStr msg))
  else
    homework_name <- lift (py_getitem homework "homework_name") ;;
    hw_status <- lift (py_getitem homework "status") ;;
    status_value <- lift (hashable hw_status) ;;
    match verdict_of status_value with
    | None =>
        let msg := "Incorrect status of homework: " ++ str_scalar status_value in
        logging_error msg ;;;
        raise (KeyError (SStr msg))
    | Some (status, verdict) =>
        name_value <- lift (hashable homework_name) ;;
        statuses <- get_statuses ;;
        if negb (bool_decide (is_Some (statuses !! key_of name_value)))
           || negb (bool_decide (statuses !! key_of name_value = Some status))
        then
          set_status (key_of name_value) status ;;;
          let message :=
            "Изменился статус проверки работы " ++ dquote
              ++ str_scalar name_value ++ dquote ++ ". " ++ verdict in
          logger_debug message ;;;
          ret message
        else
          logger_debug "No new statuses" ;;;
          ret EmptyString
    end.

(** The body of the [try] of the loop of [main]; its value is the new
    [timestamp]. *)
Definition main_try (e : env) (cfg : config) (bot : Bot) (timestamp : json) : M json :=
  response <- get_api_answer e cfg timestamp ;;
  check_response response ;;;
  homeworks <- lift (py_getitem response "homeworks") ;;
  n <- lift (py_len homeworks) ;;
  (if bool_decide (0 < n)%nat then
     homeworks <- lift (py_getitem response "homeworks") ;;
     homework <- lift (py_first homeworks) ;;
     status <- parse_status homework ;;
     send_message e cfg bot status
   else ret tt) ;;;
  lift (py_getitem response "current_date").

(** One iteration of [while True]. *)
Definition main_iteration (e : env) (cfg : config) (bot : Bot) (timestamp : json) : M json :=
  timestamp <- try_except
    (main_try e cfg bot timestamp)
    [ExceptClass Exception
       (λ error,
          let message := "Сбой в работе программы: " ++ str_exn error in
          logging_error message ;;;
          send_message e cfg bot message ;;;
          ret timestamp)] ;;
  time_sleep RETRY_PERIOD ;;;
  ret timestamp.

(** The loop never ends by itself; [ticks] gives the environment of each of
    the iterations that are observed, and the value is the [timestamp] after
    them. *)
Fixpoint main_loop (ticks : list env) (cfg : config) (bot : Bot) (timestamp : json) : M json :=
  match ticks with
  | [] => ret timestamp
  | e :: ticks' =>
      timestamp <- main_iteration e cfg bot timestamp ;;
      main_loop ticks' cfg bot timestamp
  end.

(** What the constructor [telegram.Bot(token=...)] raises for a token, when
    it raises: the library checks the shape of the token it is given, and
    refuses one it finds ill-formed with [InvalidToken]. *)
Variable Bot_init_error : option string → option exn.

(** [telegram.Bot(token=token)] *)
Definition new_Bot (token : option string) : M Bot :=
  match Bot_init_error token with
  | Some error => raise error
  | None => ret (telegram_Bot token)
  end.

(** [now] is [int(time.time())].  The value is [Raise] when [main] ends
    with an exception, and the [timestamp] of the loop after the iterations
    of [ticks] otherwise. *)
Definition main (cfg : config) (now : Z) (ticks : list env) : M json :=
  bot <- (if check_tokens cfg then new_Bot (TELEGRAM_TOKEN cfg)
          else
            logger_critical "One of the environment variables is missing" ;;;
            raise (ValueError "Missing environment variables")) ;;
  main_loop ticks cfg bot (JNum now).

End Program.

(** ** Vocabulary of the statements *)

(** [d] is an item named [name] whose status is [status]. *)
Definition Item (d : list (string * json)) (name status : string) : Prop :=
  dict_get d "homework_name" = Some (JStr name)
  ∧ dict_get d "status" = Some (JStr status).

(** The text [parse_status] returns at a transition. *)
Definition transition_message (name verdict : string) : string :=
  "Изменился статус проверки работы " ++ dquote ++ name ++ dquote ++ ". " ++ verdict.

(** A configuration value that is set and not empty, and its contrary. *)
Definition present (v : option string) : Prop :=
  ∃ s, v = Some s ∧ s ≠ EmptyString.

Definition absent_or_empty (v : option string) : Prop :=
  v = None ∨ v = Some EmptyString.

(** The world after more events. *)
Definition after (w : world) (evs : list event) : world :=
  World (homework_statuses w) (trace w ++ evs).

(** What [send_message] writes to the log after the call of the bot. *)
Definition delivery_log (e : env) (bot : Bot) (chat_id : option string)
    (text : string) : event :=
  match bot_api e bot chat_id text with
  | Some err => Log RootLogger ERROR ("Error sending message: " ++ err)
  | None => Log RootLogger DEBUG "Message sent"
  end.

Definition is_HttpGet (ev : event) : bool :=
  match ev with HttpGet _ _ => true | _ => false end.

Definition is_Log (ev : event) : bool :=
  match ev with Log _ _ _ => true | _ => false end.

(** The number of requests made to the endpoint. *)
Definition polls (w : world) : nat := length (filter is_HttpGet (trace w)).

Definition is_StatusCodeError {A} (r : result A) : bool :=
  match r with Raise (StatusCodeError _) => true | _ => false end.


(** The [current_date] the endpoint returns to the request with [from_date]
    the timestamp is an integer not before that timestamp. *)
Definition not_before (e : env) (timestamp : json) : Prop :=
  ∀ d v,
    endpoint e timestamp = Response 200 (Decoded (JDict d)) →
    dict_get d "current_date" = Some v →
    ∃ m n : Z, timestamp = JNum m ∧ v = JNum n ∧ m ≤ n.

(** [not_before] at every request the loop makes in the run of [ticks] that
    starts from [timestamp] and [w]. *)
Fixpoint run_not_before (py_repr : string → string) (ticks : list env)
    (cfg : config) (bot : Bot) (timestamp : json) (w : world) : Prop :=
  match ticks with
  | [] => True
  | e :: ticks' =>
      not_before e timestamp
      ∧ ∀ timestamp' w',
          main_iteration py_repr e cfg bot timestamp w = (Ok timestamp', w') →
          run_not_before py_repr ticks' cfg bot timestamp' w'
  end.

(** [d] is an item whose name is the value [name], of any type a dict takes
    as a key, and whose status is the [str] [status]. *)
Definition ItemOf (d : list (string * json)) (name : scalar) (status : string) : Prop :=
  ∃ homework_name,
    dict_get d "homework_name" = Some homework_name
    ∧ as_scalar homework_name = Some name
    ∧ dict_get d "status" = Some (JStr status).

Definition is_BotSend (ev : event) : bool :=
  match ev with BotSend _ _ _ => true | _ => false end.

Definition is_Sleep (ev : event) : bool :=
  match ev with Sleep _ => true | _ => false end.

(** Every status stored in [homework_statuses] is a key of
    [HOMEWORK_VERDICTS]. *)
Definition statuses_recognized (w : world) : Prop :=
  ∀ k status, homework_statuses w !! k = Some status →
              is_Some (HOMEWORK_VERDICTS !! status).

(** The texts the program hands to the bot: the empty string, the message
    of a transition, the report of a failure. *)
Definition notification (py_repr : string → string) (text : string) : Prop :=
  text = EmptyString
  ∨ (∃ name status verdict,
       HOMEWORK_VERDICTS !! status = Some verdict
       ∧ text = transition_message (str_scalar name) verdict)
  ∨ (∃ err, text = "Сбой в работе программы: " ++ str_exn py_repr err).

(** ** Inputs of the examples *)

(** [repr] of a [str] without quote, backslash or non-printable character. *)
Definition quoted (s : string) : string := "'" ++ s ++ "'".

Definition cfg1 : config :=
  Config (Some "practicum-token") (Some "telegram-token") (Some "42").

Definition bot1 : Bot := telegram_Bot (Some "telegram-token").

Definition hw1 : list (string * json) :=
  [("homework_name", JStr "hw1"); ("status", JStr "reviewing")].

Definition response1 : list (string * json) :=
  [("homeworks", JList [JDict hw1]); ("current_date", JNum 2000)].

Definition hw1_message : string :=
  transition_message "hw1" "Работа взята на проверку ревьюером.".

(** Telegram delivers every text but the empty one. *)
Definition telegram_up (bot : Bot) (chat_id : option string) (text : string)
    : option string :=
  if bool_decide (text = EmptyString) then Some "Message text is empty" else None.

(** The endpoint of the end-to-end examples of the specification. *)
Definition endpoint_hw1 : env :=
  Env (λ _, Response 200 (Decoded (JDict response1))) telegram_up.


Definition endpoint_500 : env :=
  Env (λ _, Response 500 (Invalid "Expecting value")) (λ _ _ _, None).

(** An endpoint whose clock is behind the watermark. *)
Definition endpoint_behind : env :=
  Env (λ _, Response 200
              (Decoded (JDict [("homeworks", JList []); ("current_date", JNum 500)])))
      (λ _ _ _, None).

(** An endpoint with nothing to report, ten minutes later. *)
Definition endpoint_clock : env :=
  Env (λ from_date,
         match from_date with
         | JNum m =>
             Response 200
               (Decoded (JDict [("homeworks", JList []);
                                ("current_date", JNum (m + 600))]))
         | _ => Response 400 (Invalid "Expecting value")
         end)
      (λ _ _ _, None).

(** [hw1] has been seen in review. *)
Definition seen_hw1 : world := World {[KStr "hw1" := "reviewing"]} [].

(** The world after the first iteration of the end-to-end example. *)
Definition after_first_tick : world :=
  (main_iteration quoted endpoint_hw1 cfg1 bot1 (JNum 1000) world0).2.

(** The request does not reach the endpoint. *)
Definition endpoint_down : env :=
  Env (λ _, Unreachable "Connection refused") (λ _ _ _, None).

Definition cfg_empty_chat : config :=
  Config (Some "practicum-token") (Some "telegram-token") (Some EmptyString).

(** The check of the token in the constructor of python-telegram-bot 13
    ([Bot._validate_token]), for a token of ASCII characters; this is code of
    the library, not of the repository.  A token is refused with
    [InvalidToken] when a character of it is white space, when there is no
    [:] in it, or when what comes before the first [:] is not made of three
    digits or more. *)
Definition is_space (a : Ascii.ascii) : bool :=
  let n := Ascii.nat_of_ascii a in
  bool_decide (9 ≤ n ≤ 13)%nat || bool_decide (28 ≤ n ≤ 32)%nat.

Definition is_digit (a : Ascii.ascii) : bool :=
  let n := Ascii.nat_of_ascii a in bool_decide (48 ≤ n ≤ 57)%nat.

Definition is_colon (a : Ascii.ascii) : bool :=
  bool_decide (Ascii.nat_of_ascii a = 58%nat).

(** [token.partition(':')]: what comes before the first [:], and whether
    there is one. *)
Fixpoint partition_colon (token : string) : string * bool :=
  match token with
  | EmptyString => (EmptyString, false)
  | String a rest =>
      if is_colon a then (EmptyString, true)
      else let (left, sep) := partition_colon rest in (String a left, sep)
  end.

Fixpoint any_char (p : Ascii.ascii → bool) (s : string) : bool :=
  match s with
  | EmptyString => false
  | String a rest => p a || any_char p rest
  end.

Definition validate_token (token : option string) : option exn :=
  match token with
  | None => Some (TypeError "'NoneType' object is not iterable")
  | Some t =>
      if any_char is_space t then Some (InvalidToken "Invalid token")
      else
        let (left, sep) := partition_colon t in
        if negb sep || any_char (λ a, negb (is_digit a)) left
           || bool_decide (String.length left < 3)%nat
        then Some (InvalidToken "Invalid token")
        else None
  end.

(** A configuration whose token has the shape the library asks for. *)
Definition cfg2 : config :=
  Config (Some "practicum-token") (Some "123456:telegram-token") (Some "42").

(** A second item, and the response of [endpoint_hw1] with it after [hw1]. *)
Definition hw2 : list (string * json) :=
  [("homework_name", JStr "hw2"); ("status", JStr "approved")].

Definition response1_more : list (string * json) :=
  [("homeworks", JList [JDict hw1; JDict hw2]); ("current_date", JNum 2000)].

Definition endpoint_hw1_more : env :=
  Env (λ _, Response 200 (Decoded (JDict response1_more))) telegram_up.

(** Items without a status, with a status out of the catalogue, with a
    status that is a list. *)
Definition hw_no_status : list (string * json) :=
  [("homework_name", JStr "hw1")].

Definition hw_unknown_status : list (string * json) :=
  [("homework_name", JStr "hw1"); ("status", JStr "lost")].

Definition hw_list_status : list (string * json) :=
  [("homework_name", JStr "hw1"); ("status", JList [JStr "reviewing"])].

(** A response whose [homeworks] is not a list. *)
Definition response_bad_homeworks : list (string * json) :=
  [("homeworks", JStr "none"); ("current_date", JNum 2000)].

(** ** Lemmas on the monad and on the parts of the program *)

(** Unfolds the operations of the monad. *)
Ltac unfold_M :=
  unfold logging_error, logging_debug, logger_debug, logger_critical, time_sleep;
  unfold try_except; unfold try_except_else, bind, ret, raise, lift, emit,
    get_statuses, set_status, after.

Section Properties.

Variable py_repr : string → string.
Variable Bot_init_error : option string → option exn.

Local Arguments String.append : simpl never.

Lemma after_after w evs evs' : after (after w evs) evs' = after w (evs ++ evs').
Proof. unfold after; simpl. by rewrite <- app_assoc. Qed.

Lemma dict_has_true d k v : dict_get d k = Some v → dict_has d k = true.
Proof. intros H. unfold dict_has. rewrite H. apply bool_decide_eq_true_2. eauto. Qed.

Lemma dict_has_false d k : dict_get d k = None → dict_has d k = false.
Proof.
  intros H. unfold dict_has. rewrite H. apply bool_decide_eq_false_2.
  intros [v Hv]. discriminate.
Qed.

Lemma send_message_spec e cfg bot message w :
  send_message py_repr e cfg bot message w =
  (Ok tt, after w [BotSend bot (TELEGRAM_CHAT_ID cfg) message;
                   delivery_log e bot (TELEGRAM_CHAT_ID cfg) message]).
Proof.
  unfold send_message, bot_send_message, delivery_log. unfold_M.
  destruct (bot_api e bot (TELEGRAM_CHAT_ID cfg) message) as [err|]; simpl;
    by rewrite <- app_assoc.
Qed.

Lemma get_api_answer_try_spec e cfg timestamp w :
  get_api_answer_try e cfg timestamp w =
  (match endpoint e timestamp with
   | Unreachable err => Raise (RequestException err)
   | Response code content =>
       if bool_decide (code = 200) then
         match content with
         | Invalid err => Raise (JSONDecodeError err)
         | Decoded j => Ok j
         end
       else Raise (StatusCodeError
                     ("Status code is different from 200 : " ++ pretty code))
   end,
   after w [HttpGet (authorization cfg) timestamp]).
Proof.
  unfold get_api_answer_try, requests_get, response_json. unfold_M.
  destruct (endpoint e timestamp) as [err|code [err|j]]; simpl; try done;
    by destruct (bool_decide (code = 200)).
Qed.

Lemma get_api_answer_try_ok e cfg timestamp w j w' :
  get_api_answer_try e cfg timestamp w = (Ok j, w') →
  endpoint e timestamp = Response 200 (Decoded j)
  ∧ w' = after w [HttpGet (authorization cfg) timestamp].
Proof.
  rewrite get_api_answer_try_spec.
  destruct (endpoint e timestamp) as [err|code [err|j']]; try done;
    case_bool_decide; try done.
  intros [= -> <-]. by subst.
Qed.

Lemma get_api_answer_spec e cfg timestamp w :
  get_api_answer py_repr e cfg timestamp w =
  match get_api_answer_try e cfg timestamp w with
  | (Ok j, w') => (Ok j, w')
  | (Raise _, w') => (Raise (TypeError catching_instance), w')
  end.
Proof.
  unfold get_api_answer. unfold_M.
  by destruct (get_api_answer_try e cfg timestamp w) as [[j|err] w'].
Qed.

Lemma transition_condition (statuses : gmap pykey string) k status :
  negb (bool_decide (is_Some (statuses !! k)))
  || negb (bool_decide (statuses !! k = Some status))
  = negb (bool_decide (statuses !! k = Some status)).
Proof.
  destruct (statuses !! k) as [old|] eqn:E.
  - rewrite (bool_decide_eq_true_2 (is_Some (Some old))); [done | eauto].
  - rewrite (bool_decide_eq_false_2 (None = Some status)); [|done].
    by rewrite orb_true_r.
Qed.

Lemma parse_status_item d name status verdict w :
  Item d name status →
  HOMEWORK_VERDICTS !! status = Some verdict →
  parse_status (JDict d) w =
  if bool_decide (homework_statuses w !! KStr name = Some status)
  then (Ok EmptyString, after w [Log ModuleLogger DEBUG "No new statuses"])
  else (Ok (transition_message name verdict),
        World (<[KStr name := status]> (homework_statuses w))
              (trace w ++ [Log ModuleLogger DEBUG (transition_message name verdict)])).
Proof.
  intros [Hname Hstatus] Hverdict.
  unfold parse_status. unfold_M. simpl.
  rewrite (dict_has_true _ _ _ Hname), (dict_has_true _ _ _ Hstatus). simpl.
  rewrite Hname, Hstatus. simpl. rewrite Hverdict. simpl.
  rewrite transition_condition.
  case_bool_decide; simpl; reflexivity.
Qed.

Lemma check_response_ok response w b w' :
  check_response response w = (Ok b, w') →
  ∃ d l, response = JDict d ∧ dict_get d "homeworks" = Some (JList l)
         ∧ is_Some (dict_get d "current_date") ∧ w' = w ∧ b = true.
Proof.
  unfold check_response. unfold_M.
  destruct response as [| | | | |d]; simpl; try discriminate.
  unfold dict_has.
  destruct (dict_get d "homeworks") as [hws|] eqn:Hh;
    destruct (dict_get d "current_date") as [cd|] eqn:Hc; simpl;
    try discriminate.
  destruct hws; simpl; try discriminate.
  intros [= <- <-]. eauto 10.
Qed.

Lemma check_response_valid d l cd w :
  dict_get d "homeworks" = Some (JList l) →
  dict_get d "current_date" = Some cd →
  check_response (JDict d) w = (Ok true, w).
Proof.
  intros Hh Hc. unfold check_response. unfold_M. simpl.
  rewrite (dict_has_true _ _ _ Hh), (dict_has_true _ _ _ Hc). simpl.
  by rewrite Hh.
Qed.

(** The [try] of the loop ends normally only on a response of status 200
    whose body validates, and its value is the [current_date] of it. *)
Lemma main_try_ok e cfg bot timestamp w timestamp' w' :
  main_try py_repr e cfg bot timestamp w = (Ok timestamp', w') →
  ∃ d l, endpoint e timestamp = Response 200 (Decoded (JDict d))
         ∧ dict_get d "homeworks" = Some (JList l)
         ∧ dict_get d "current_date" = Some timestamp'.
Proof.
  unfold main_try, bind at 1. rewrite get_api_answer_spec.
  destruct (get_api_answer_try e cfg timestamp w) as [[response|err] w1] eqn:Htry;
    [|discriminate].
  apply get_api_answer_try_ok in Htry as [Htry _].
  unfold bind at 1.
  destruct (check_response response w1) as [[b|err] w2] eqn:Hcheck; [|discriminate].
  apply check_response_ok in Hcheck as (d & l & -> & Hh & [cd Hc] & -> & ->).
  unfold_M. simpl. rewrite Hh, Hc. simpl.
  intros H. exists d, l. split; [done|]. split; [done|].
  destruct (bool_decide (0 < length l)%nat).
  - destruct l as [|homework l']; simpl in H; [discriminate|].
    destruct (parse_status homework w1) as [[status|err] w3]; simpl in H;
      [|discriminate].
    rewrite send_message_spec in H. simpl in H. by injection H as <- _.
  - simpl in H. by injection H as <- _.
Qed.

Lemma main_iteration_spec e cfg bot timestamp w :
  main_iteration py_repr e cfg bot timestamp w =
  match main_try py_repr e cfg bot timestamp w with
  | (Ok timestamp', w1) => (Ok timestamp', after w1 [Sleep RETRY_PERIOD])
  | (Raise error, w1) =>
      let message := "Сбой в работе программы: " ++ str_exn py_repr error in
      (Ok timestamp,
       after w1 [Log RootLogger ERROR message;
                 BotSend bot (TELEGRAM_CHAT_ID cfg) message;
                 delivery_log e bot (TELEGRAM_CHAT_ID cfg) message;
                 Sleep RETRY_PERIOD])
  end.
Proof.
  unfold main_iteration. unfold_M.
  destruct (main_try py_repr e cfg bot timestamp w) as [[timestamp'|error] w1];
    simpl; [done|].
  rewrite send_message_spec. unfold after. simpl.
  by rewrite <- !app_assoc.
Qed.

Lemma main_iteration_total e cfg bot timestamp w :
  ∃ timestamp' w', main_iteration py_repr e cfg bot timestamp w = (Ok timestamp', w').
Proof.
  rewrite main_iteration_spec.
  destruct (main_try py_repr e cfg bot timestamp w) as [[timestamp'|error] w1];
    eauto.
Qed.

Lemma check_response_effects response w :
  ∃ evs : list event,
    (check_response response w).2 = after w evs ∧ forallb is_Log evs = true.
Proof.
  assert (Hnil : w = after w []).
  { destruct w. unfold after. simpl. by rewrite app_nil_r. }
  unfold check_response. unfold_M.
  destruct (is_dict response); cbn [negb]; [|eexists [_]; done].
  destruct (missing_in response ["homeworks"; "current_date"]) as [missing|err];
    [|by exists []].
  destruct (nonempty missing); [eexists [_]; done|].
  destruct (py_getitem response "homeworks") as [homeworks|err]; [|by exists []].
  destruct (is_list homeworks); cbn [negb]; [by exists []|eexists [_]; done].
Qed.

Lemma parse_status_effects homework w :
  ∃ evs : list event,
    trace (parse_status homework w).2 = (trace w ++ evs)%list
    ∧ forallb is_Log evs = true
    ∧ (∀ err, (parse_status homework w).1 = Raise err →
         homework_statuses (parse_status homework w).2 = homework_statuses w).
Proof.
  unfold parse_status. unfold_M.
  destruct (missing_in homework ["status"; "homework_name"]) as [missing|err] eqn:Hm;
    [|exists []; by rewrite app_nil_r].
  destruct (nonempty missing); simpl; [eexists [_]; done|].
  destruct (py_getitem homework "homework_name") as [homework_name|err];
    [|exists []; by rewrite app_nil_r].
  destruct (py_getitem homework "status") as [hw_status|err];
    [|exists []; by rewrite app_nil_r].
  destruct (hashable hw_status) as [status_value|err];
    [|exists []; by rewrite app_nil_r].
  destruct (verdict_of status_value) as [[status verdict]|]; [|eexists [_]; done].
  destruct (hashable homework_name) as [name_value|err];
    [|exists []; by rewrite app_nil_r].
  match goal with |- context [if ?c then _ else _] => destruct c end; simpl;
    eexists [_]; done.
Qed.

(** The [try] of the loop on a response of status 200 that validates. *)
Lemma main_try_valid e cfg bot timestamp w d l cd :
  endpoint e timestamp = Response 200 (Decoded (JDict d)) →
  dict_get d "homeworks" = Some (JList l) →
  dict_get d "current_date" = Some cd →
  main_try py_repr e cfg bot timestamp w =
  let w1 := after w [HttpGet (authorization cfg) timestamp] in
  match l with
  | [] => (Ok cd, w1)
  | homework :: _ =>
      match parse_status homework w1 with
      | (Ok status, w2) =>
          (Ok cd, after w2 [BotSend bot (TELEGRAM_CHAT_ID cfg) status;
                            delivery_log e bot (TELEGRAM_CHAT_ID cfg) status])
      | (Raise err, w2) => (Raise err, w2)
      end
  end.
Proof.
  intros He Hh Hc.
  unfold main_try, bind at 1.
  rewrite get_api_answer_spec, get_api_answer_try_spec, He. simpl.
  unfold bind at 1. rewrite (check_response_valid _ _ _ _ Hh Hc).
  unfold_M. simpl. rewrite Hh, Hc. simpl.
  destruct l as [|homework l']; simpl; [done|].
  destruct (parse_status homework _) as [[status|err] w2]; simpl; [|done].
  by rewrite send_message_spec.
Qed.

Lemma is_Log_not_HttpGet evs :
  forallb is_Log evs = true → forallb (λ ev, negb (is_HttpGet ev)) evs = true.
Proof.
  induction evs as [|[] evs IH]; simpl; try done.
Qed.

(** The [try] of the loop asks the endpoint once, and leaves
    [homework_statuses] as it was when it raises. *)
Lemma main_try_effects e cfg bot timestamp w :
  ∃ evs : list event,
    trace (main_try py_repr e cfg bot timestamp w).2
    = (trace w ++ HttpGet (authorization cfg) timestamp :: evs)%list
    ∧ forallb (λ ev, negb (is_HttpGet ev)) evs = true
    ∧ (∀ err, (main_try py_repr e cfg bot timestamp w).1 = Raise err →
         homework_statuses (main_try py_repr e cfg bot timestamp w).2
         = homework_statuses w).
Proof.
  destruct (main_try py_repr e cfg bot timestamp w) as [[timestamp'|err] w'] eqn:Hrun.
  - destruct (main_try_ok _ _ _ _ _ _ _ Hrun) as (d & l & He & Hh & Hc).
    rewrite (main_try_valid _ _ _ _ _ _ _ _ He Hh Hc) in Hrun. simpl in Hrun.
    destruct l as [|homework l'].
    + simplify_eq. exists []. simpl. done.
    + destruct (parse_status_effects homework
                  (after w [HttpGet (authorization cfg) timestamp]))
        as (evs & Htrace & Hlogs & _).
      destruct (parse_status homework _) as [[status|err] w2]; [|discriminate].
      simplify_eq. simpl in *.
      exists (evs ++ [BotSend bot (TELEGRAM_CHAT_ID cfg) status;
                      delivery_log e bot (TELEGRAM_CHAT_ID cfg) status])%list.
      rewrite Htrace, <- !app_assoc. simpl. split; [done|]. split; [|done].
      rewrite forallb_app, (is_Log_not_HttpGet _ Hlogs). simpl.
      unfold delivery_log. by destruct (bot_api _ _ _ _).
  - revert Hrun. unfold main_try, bind at 1.
    rewrite get_api_answer_spec, get_api_answer_try_spec.
    set (w1 := after w [HttpGet (authorization cfg) timestamp]).
    set (fetched := match endpoint e timestamp with
                    | Unreachable _ => _ | Response _ _ => _ end).
    destruct fetched as [response|err0].
    2: { intros [= <- <-]. exists []. simpl. done. }
    unfold bind at 1.
    destruct (check_response_effects response w1) as (evs & Hw2 & Hlogs).
    destruct (check_response response w1) as [[b|err0] w2] eqn:Hcheck.
    2: { intros [= <- <-]. simpl in Hw2. subst w2. exists evs. simpl.
         rewrite <- app_assoc. simpl. by rewrite (is_Log_not_HttpGet _ Hlogs). }
    apply check_response_ok in Hcheck as (d & l & -> & Hh & [cd Hc] & -> & ->).
    unfold_M. simpl. rewrite Hh, Hc. simpl.
    destruct l as [|homework l']; simpl; [discriminate|].
    destruct (parse_status_effects homework w1) as (evs' & Htrace & Hlogs' & Hsame).
    destruct (parse_status homework w1) as [[status|err0] w3]; simpl.
    { by rewrite send_message_spec. }
    intros [= <- <-]. simpl in *. exists evs'.
    rewrite Htrace, <- app_assoc. simpl.
    rewrite (is_Log_not_HttpGet _ Hlogs'). eauto.
Qed.

Lemma polls_after w evs :
  polls (after w evs) = (polls w + length (filter is_HttpGet evs))%nat.
Proof. unfold polls, after. simpl. by rewrite filter_app, length_app. Qed.

Lemma filter_none_HttpGet evs :
  forallb (λ ev, negb (is_HttpGet ev)) evs = true → filter is_HttpGet evs = [].
Proof.
  induction evs as [|ev evs IH]; simpl; [done|].
  intros [Hev Hevs]%andb_true_iff.
  rewrite filter_cons_False; [by apply IH|].
  destruct (is_HttpGet ev); [done|]. intros [].
Qed.

(** One iteration asks the endpoint exactly once, whatever happens in it. *)
Lemma main_iteration_polls e cfg bot timestamp w :
  polls (main_iteration py_repr e cfg bot timestamp w).2 = S (polls w).
Proof.
  rewrite main_iteration_spec.
  destruct (main_try_effects e cfg bot timestamp w) as (evs & Htrace & Hevs & _).
  assert (Htry : polls (main_try py_repr e cfg bot timestamp w).2 = S (polls w)).
  { unfold polls. rewrite Htrace, filter_app, length_app, filter_cons_True by done.
    simpl. rewrite (filter_none_HttpGet _ Hevs). simpl. lia. }
  destruct (main_try py_repr e cfg bot timestamp w) as [[timestamp'|error] w1];
    simpl in *; rewrite polls_after, Htry; simpl.
  - lia.
  - rewrite filter_cons_False by (simpl; intros []).
    rewrite filter_cons_False by (simpl; intros []).
    rewrite filter_cons_False
      by (unfold delivery_log; destruct (bot_api _ _ _ _); simpl; intros []).
    rewrite filter_cons_False by (simpl; intros []).
    simpl. lia.
Qed.

(** The loop goes through every iteration it is given. *)
Lemma main_loop_total ticks cfg bot timestamp w :
  ∃ timestamp' w',
    main_loop py_repr ticks cfg bot timestamp w = (Ok timestamp', w')
    ∧ polls w' = (polls w + length ticks)%nat.
Proof.
  revert timestamp w.
  induction ticks as [|e ticks IH]; intros timestamp w; simpl.
  - exists timestamp, w. split; [done|lia].
  - unfold bind.
    pose proof (main_iteration_polls e cfg bot timestamp w) as Hpolls.
    destruct (main_iteration_total e cfg bot timestamp w)
      as (timestamp1 & w1 & Hstep).
    rewrite Hstep in *. simpl in Hpolls.
    destruct (IH timestamp1 w1) as (timestamp' & w' & Hrun & Hcount).
    exists timestamp', w'. split; [done|]. rewrite Hcount, Hpolls. lia.
Qed.

(** The timestamp after an iteration is the one before it, or the
    [current_date] of a response of status 200 that validates. *)
Lemma main_iteration_timestamp e cfg bot timestamp w :
  ∃ timestamp' w',
    main_iteration py_repr e cfg bot timestamp w = (Ok timestamp', w')
    ∧ (timestamp' = timestamp
       ∨ ∃ d l, endpoint e timestamp = Response 200 (Decoded (JDict d))
                ∧ dict_get d "homeworks" = Some (JList l)
                ∧ dict_get d "current_date" = Some timestamp').
Proof.
  rewrite main_iteration_spec.
  destruct (main_try py_repr e cfg bot timestamp w) as [[timestamp'|error] w1] eqn:Hrun.
  - eexists _, _. split; [done|]. right. by eapply main_try_ok.
  - eexists _, _. split; [done|]. by left.
Qed.


Lemma truthy_present v : truthy v = true ↔ present v.
Proof.
  unfold present. destruct v as [s|]; simpl.
  - rewrite negb_true_iff, bool_decide_eq_false. split.
    + intros Hs. by exists s.
    + by intros (s' & [= <-] & Hs).
  - split; [done|]. by intros (s & Hs & _).
Qed.

Lemma truthy_absent_or_empty v : truthy v = false ↔ absent_or_empty v.
Proof.
  unfold absent_or_empty. destruct v as [s|]; simpl.
  - rewrite negb_false_iff, bool_decide_eq_true. split.
    + intros ->. by right.
    + by intros [Hs | [= ->]].
  - split; [by left|done].
Qed.

Lemma check_tokens_spec cfg :
  check_tokens cfg
  = truthy (TELEGRAM_CHAT_ID cfg) && truthy (TELEGRAM_TOKEN cfg)
    && truthy (PRACTICUM_TOKEN cfg).
Proof.
  unfold check_tokens.
  by destruct (truthy (TELEGRAM_CHAT_ID cfg)), (truthy (TELEGRAM_TOKEN cfg)),
    (truthy (PRACTICUM_TOKEN cfg)).
Qed.

Lemma main_iteration_trace e cfg bot timestamp w :
  ∃ evs : list event,
    trace (main_iteration py_repr e cfg bot timestamp w).2
    = (trace w ++ HttpGet (authorization cfg) timestamp :: evs)%list.
Proof.
  rewrite main_iteration_spec.
  destruct (main_try_effects e cfg bot timestamp w) as (evs & Htrace & _).
  destruct (main_try py_repr e cfg bot timestamp w) as [[timestamp'|error] w1];
    simpl in *; rewrite Htrace, <- app_assoc; simpl; eauto.
Qed.

Lemma main_loop_trace ticks cfg bot timestamp w :
  ∃ evs : list event,
    trace (main_loop py_repr ticks cfg bot timestamp w).2 = (trace w ++ evs)%list.
Proof.
  revert timestamp w.
  induction ticks as [|e ticks IH]; intros timestamp w; simpl.
  - exists []. by rewrite app_nil_r.
  - unfold bind.
    destruct (main_iteration_trace e cfg bot timestamp w) as (evs1 & Htrace).
    destruct (main_iteration_total e cfg bot timestamp w) as (timestamp1 & w1 & Hstep).
    rewrite Hstep in *. simpl in Htrace.
    destruct (IH timestamp1 w1) as (evs & Hrest).
    rewrite Hrest, Htrace, <- app_assoc. simpl. eauto.
Qed.

Lemma main_loop_app ticks1 ticks2 cfg bot timestamp w :
  main_loop py_repr (ticks1 ++ ticks2) cfg bot timestamp w =
  match main_loop py_repr ticks1 cfg bot timestamp w with
  | (Ok timestamp1, w1) => main_loop py_repr ticks2 cfg bot timestamp1 w1
  | (Raise err, w1) => (Raise err, w1)
  end.
Proof.
  revert timestamp w.
  induction ticks1 as [|e ticks1 IH]; intros timestamp w; simpl; [done|].
  unfold bind.
  destruct (main_iteration py_repr e cfg bot timestamp w) as [[timestamp1|err] w1];
    [apply IH|done].
Qed.

(** The run of the first iterations of a run, and the run of the others
    from where the first ones end. *)
Lemma run_not_before_app ticks1 ticks2 cfg bot timestamp w :
  run_not_before py_repr (ticks1 ++ ticks2) cfg bot timestamp w →
  run_not_before py_repr ticks1 cfg bot timestamp w
  ∧ ∀ timestamp1 w1,
      main_loop py_repr ticks1 cfg bot timestamp w = (Ok timestamp1, w1) →
      run_not_before py_repr ticks2 cfg bot timestamp1 w1.
Proof.
  revert timestamp w.
  induction ticks1 as [|e ticks1 IH]; intros timestamp w; simpl.
  - intros Hrun. split; [done|]. unfold ret. by intros ? ? [= <- <-].
  - intros [He Hrest]. unfold bind.
    destruct (main_iteration_total e cfg bot timestamp w) as (timestamp0 & w0 & Hstep).
    rewrite Hstep. destruct (IH _ _ (Hrest _ _ Hstep)) as [Hfirst Hthen].
    split; [|done]. split; [done|].
    intros timestamp' w' Hstep'. by simplify_eq.
Qed.

(** Through a run in which every [current_date] returned is not before the
    [from_date] of its request, the timestamp stays an integer and does not
    decrease. *)
Lemma run_not_before_le ticks cfg bot (m : Z) w :
  run_not_before py_repr ticks cfg bot (JNum m) w →
  ∃ (n : Z) w',
    main_loop py_repr ticks cfg bot (JNum m) w = (Ok (JNum n), w') ∧ m ≤ n.
Proof.
  revert m w.
  induction ticks as [|e ticks IH]; intros m w; simpl.
  - intros _. exists m, w. split; [done|lia].
  - intros [He Hrest]. unfold bind.
    destruct (main_iteration_timestamp e cfg bot (JNum m) w)
      as (timestamp1 & w1 & Hstep & Hcases).
    rewrite Hstep. specialize (Hrest _ _ Hstep).
    destruct Hcases as [->|(d & l & Hd & _ & Hcd)].
    + by apply IH.
    + destruct (He d timestamp1 Hd Hcd) as (m' & n1 & [= <-] & -> & Hle).
      destruct (IH n1 w1 Hrest) as (n & w' & Hrun & Hle').
      exists n, w'. split; [done|lia].
Qed.

(** ** Properties of the specification *)

(** C1, as the code has it: in an iteration whose response validates and
    whose first item shows no transition, [parse_status] returns the empty
    string and the loop passes it to [send_message] all the same, so the bot
    is asked to send an empty text. *)
Theorem C1_bot_called_without_transition
    e cfg bot timestamp w d item l cd name status verdict :
  endpoint e timestamp = Response 200 (Decoded (JDict d)) →
  dict_get d "homeworks" = Some (JList (JDict item :: l)) →
  dict_get d "current_date" = Some cd →
  Item item name status →
  HOMEWORK_VERDICTS !! status = Some verdict →
  homework_statuses w !! KStr name = Some status →
  main_iteration py_repr e cfg bot timestamp w =
  (Ok cd, after w [HttpGet (authorization cfg) timestamp;
                   Log ModuleLogger DEBUG "No new statuses";
                   BotSend bot (TELEGRAM_CHAT_ID cfg) EmptyString;
                   delivery_log e bot (TELEGRAM_CHAT_ID cfg) EmptyString;
                   Sleep RETRY_PERIOD]).
Proof.
  intros He Hh Hc Hitem Hverdict Hseen.
  rewrite main_iteration_spec, (main_try_valid _ _ _ _ _ _ _ _ He Hh Hc).
  cbv zeta. rewrite (parse_status_item _ _ _ _ _ Hitem Hverdict).
  rewrite bool_decide_eq_true_2 by done.
  by rewrite !after_after.
Qed.

(** C2, amended: when the status code of the response is not 200, a
    [StatusCodeError] whose message carries the code is raised inside the
    [try] of [get_api_answer], where the [except] clauses of the function
    take it over: what the caller gets is not a [StatusCodeError]. *)
Theorem C2_status_code_error_stays_inside e cfg timestamp w code content :
  endpoint e timestamp = Response code content →
  code ≠ 200 →
  (get_api_answer_try e cfg timestamp w).1
  = Raise (StatusCodeError ("Status code is different from 200 : " ++ pretty code))
  ∧ is_StatusCodeError (get_api_answer py_repr e cfg timestamp w).1 = false.
Proof.
  intros He Hcode.
  rewrite get_api_answer_spec, get_api_answer_try_spec, He.
  by rewrite bool_decide_eq_false_2.
Qed.


(** C4, amended: the timestamp changes only at the end of an iteration whose
    response has status 200 and validates, and becomes the [current_date] of
    that response; through a run of the loop in which every [current_date]
    the endpoint returns is an integer not before the [from_date] of the
    request it answers, the timestamp after any number of iterations is not
    below the one it started from, and not below the one after fewer
    iterations. *)
Theorem C4_timestamp_follows_current_date cfg bot :
  (∀ e timestamp w,
     ∃ timestamp' w',
       main_iteration py_repr e cfg bot timestamp w = (Ok timestamp', w')
       ∧ (timestamp' = timestamp
          ∨ ∃ d l, endpoint e timestamp = Response 200 (Decoded (JDict d))
                   ∧ dict_get d "homeworks" = Some (JList l)
                   ∧ dict_get d "current_date" = Some timestamp'))
  ∧ (∀ ticks1 ticks2 (m : Z) w,
       run_not_before py_repr (ticks1 ++ ticks2) cfg bot (JNum m) w →
       ∃ (n1 n2 : Z) w1 w2,
         main_loop py_repr ticks1 cfg bot (JNum m) w = (Ok (JNum n1), w1)
         ∧ main_loop py_repr (ticks1 ++ ticks2) cfg bot (JNum m) w
           = (Ok (JNum n2), w2)
         ∧ m ≤ n1 ∧ n1 ≤ n2).
Proof.
  split; [intros e timestamp w; apply main_iteration_timestamp|].
  intros ticks1 ticks2 m w [Hfirst Hthen]%run_not_before_app.
  destruct (run_not_before_le _ _ _ _ _ Hfirst) as (n1 & w1 & Hrun1 & Hle1).
  destruct (run_not_before_le _ _ _ _ _ (Hthen _ _ Hrun1))
    as (n2 & w2 & Hrun2 & Hle2).
  exists n1, n2, w1, w2. rewrite main_loop_app, Hrun1. done.
Qed.

(** C5, amended: for an item with a recognized status, the second of two
    calls of [parse_status] in succession returns the empty string and
    leaves [homework_statuses] as the first call left it, with that status
    for that name; the first call returns the message when the status was
    not the one stored for the name, and the empty string when it was. *)
Theorem C5_parse_status_twice d name status verdict w :
  Item d name status →
  HOMEWORK_VERDICTS !! status = Some verdict →
  ∃ message w1 w2,
    parse_status (JDict d) w = (Ok message, w1)
    ∧ parse_status (JDict d) w1 = (Ok EmptyString, w2)
    ∧ homework_statuses w1 !! KStr name = Some status
    ∧ homework_statuses w2 = homework_statuses w1
    ∧ (homework_statuses w !! KStr name ≠ Some status →
       message = transition_message name verdict ∧ message ≠ EmptyString)
    ∧ (homework_statuses w !! KStr name = Some status → message = EmptyString).
Proof.
  intros Hitem Hverdict.
  rewrite (parse_status_item _ _ _ _ w Hitem Hverdict).
  case_bool_decide as Hseen.
  - eexists _, _, _. split; [done|].
    rewrite (parse_status_item _ _ _ _ _ Hitem Hverdict).
    rewrite bool_decide_eq_true_2 by done.
    repeat split; try done.
  - eexists _, _, _. split; [done|].
    rewrite (parse_status_item _ _ _ _ _ Hitem Hverdict).
    rewrite bool_decide_eq_true_2 by (simpl; apply lookup_insert_eq).
    repeat split; try done.
    simpl. apply lookup_insert_eq.
Qed.

(** C6: on a dict in which [homeworks] or [current_date] (or both) is
    missing, [check_response] logs and raises one [KeyError] whose message
    lists, after [Keys are missing: ], every missing key. *)
Theorem C6_missing_keys_named_together d w :
  dict_get d "homeworks" = None ∨ dict_get d "current_date" = None →
  let missing_keys :=
    List.filter (λ key, negb (dict_has d key)) ["homeworks"; "current_date"] in
  let msg := "Keys are missing: " ++ String.concat ", " missing_keys in
  check_response (JDict d) w
  = (Raise (KeyError (SStr msg)), after w [Log RootLogger ERROR msg])
  ∧ (dict_get d "homeworks" = None →
     In "homeworks" missing_keys ∧ substring_of "homeworks" msg = true)
  ∧ (dict_get d "current_date" = None →
     In "current_date" missing_keys ∧ substring_of "current_date" msg = true).
Proof.
  intros Hmissing. unfold check_response. unfold_M. cbn [is_dict negb].
  destruct (dict_get d "homeworks") as [homeworks|] eqn:Hh;
    destruct (dict_get d "current_date") as [current_date|] eqn:Hc;
    try (destruct Hmissing; discriminate); simpl;
    rewrite ?(dict_has_true _ _ _ Hh), ?(dict_has_true _ _ _ Hc),
      ?(dict_has_false _ _ Hh), ?(dict_has_false _ _ Hc); simpl;
    (split; [done|]); split; intros; try discriminate;
    (split; [auto|by vm_compute]).
Qed.

(** C7: [send_message] ends normally whatever the bot does, and logs the
    error when the bot raises; an iteration of the loop ends normally
    whatever happens in its [try] (the exception is logged and reported,
    then the iteration sleeps); and the loop goes through all the iterations
    it is given, one request to the endpoint in each. *)
Theorem C7_failures_are_contained ticks e cfg bot timestamp message w :
  send_message py_repr e cfg bot message w
  = (Ok tt,
     after w [BotSend bot (TELEGRAM_CHAT_ID cfg) message;
              match bot_api e bot (TELEGRAM_CHAT_ID cfg) message with
              | Some err => Log RootLogger ERROR ("Error sending message: " ++ err)
              | None => Log RootLogger DEBUG "Message sent"
              end])
  ∧ main_iteration py_repr e cfg bot timestamp w
    = match main_try py_repr e cfg bot timestamp w with
      | (Ok timestamp', w1) => (Ok timestamp', after w1 [Sleep RETRY_PERIOD])
      | (Raise error, w1) =>
          let failure := "Сбой в работе программы: " ++ str_exn py_repr error in
          (Ok timestamp,
           after w1 [Log RootLogger ERROR failure;
                     BotSend bot (TELEGRAM_CHAT_ID cfg) failure;
                     delivery_log e bot (TELEGRAM_CHAT_ID cfg) failure;
                     Sleep RETRY_PERIOD])
      end
  ∧ ∃ timestamp' w',
      main_loop py_repr ticks cfg bot timestamp w = (Ok timestamp', w')
      ∧ polls w' = (polls w + length ticks)%nat.
Proof.
  split; [apply send_message_spec|].
  split; [apply main_iteration_spec|apply main_loop_total].
Qed.

(** C8, amended: when one of the three configuration values is absent or
    empty, [main] logs a critical record and raises [ValueError] without
    asking the endpoint or the bot anything.  When the three are present and
    not empty, [main] builds the bot: if the constructor of the library
    raises (it refuses the token), [main] ends with that exception, nothing
    logged and nothing asked; if it returns, the loop starts: the first
    thing that happens is the request with [from_date] the time of the
    start, and every iteration takes place. *)
Theorem C8_startup cfg now e ticks w :
  (absent_or_empty (TELEGRAM_CHAT_ID cfg) ∨ absent_or_empty (TELEGRAM_TOKEN cfg)
   ∨ absent_or_empty (PRACTICUM_TOKEN cfg) →
   main py_repr Bot_init_error cfg now (e :: ticks) w
   = (Raise (ValueError "Missing environment variables"),
      after w [Log ModuleLogger CRITICAL
                 "One of the environment variables is missing"]))
  ∧ (present (TELEGRAM_CHAT_ID cfg) ∧ present (TELEGRAM_TOKEN cfg)
     ∧ present (PRACTICUM_TOKEN cfg) →
     match Bot_init_error (TELEGRAM_TOKEN cfg) with
     | Some error =>
         main py_repr Bot_init_error cfg now (e :: ticks) w = (Raise error, w)
     | None =>
         ∃ timestamp' w' (evs : list event),
           main py_repr Bot_init_error cfg now (e :: ticks) w = (Ok timestamp', w')
           ∧ trace w'
             = (trace w ++ HttpGet (authorization cfg) (JNum now) :: evs)%list
           ∧ polls w' = (polls w + S (length ticks))%nat
     end).
Proof.
  unfold main. rewrite check_tokens_spec. split.
  - rewrite <- !truthy_absent_or_empty. intros Hmissing.
    assert (truthy (TELEGRAM_CHAT_ID cfg) && truthy (TELEGRAM_TOKEN cfg)
            && truthy (PRACTICUM_TOKEN cfg) = false) as ->.
    { destruct Hmissing as [-> | [-> | ->]]; rewrite ?andb_false_r; done. }
    done.
  - rewrite <- !truthy_present. intros (-> & -> & ->). cbn [andb].
    unfold new_Bot.
    destruct (Bot_init_error (TELEGRAM_TOKEN cfg)) as [error|]; [done|].
    unfold bind at 1, ret at 1.
    set (bot := telegram_Bot (TELEGRAM_TOKEN cfg)).
    destruct (main_loop_total (e :: ticks) cfg bot (JNum now) w)
      as (timestamp' & w' & Hrun & Hpolls).
    pose proof (main_loop_trace ticks cfg bot) as Hrest.
    destruct (main_iteration_trace e cfg bot (JNum now) w) as (evs1 & Htrace).
    destruct (main_iteration_total e cfg bot (JNum now) w)
      as (timestamp1 & w1 & Hstep).
    rewrite Hrun. simpl in Hrun. unfold bind in Hrun. rewrite Hstep in *.
    destruct (Hrest timestamp1 w1) as (evs & Hevs). rewrite Hrun in Hevs.
    simpl in *. exists timestamp', w', (evs1 ++ evs)%list.
    split; [done|]. split; [|done].
    rewrite Hevs, Htrace, <- app_assoc. done.
Qed.

(** C9: on an item with a recognized status [parse_status] returns normally
    and only adds one debug record of the module logger to the trace.  At a
    transition (the name is absent from [homework_statuses], or stored with
    another status) the table becomes the old one with the status stored for
    the name: that entry changes and no other entry does.  Without a
    transition the table is the one before the call. *)
Theorem C9_parse_status_frame d name status verdict w :
  Item d name status →
  HOMEWORK_VERDICTS !! status = Some verdict →
  ∃ message w' record,
    parse_status (JDict d) w = (Ok message, w')
    ∧ trace w' = (trace w ++ [Log ModuleLogger DEBUG record])%list
    ∧ (homework_statuses w !! KStr name = None
       ∨ (∃ old, homework_statuses w !! KStr name = Some old ∧ old ≠ status) →
       message = transition_message name verdict
       ∧ homework_statuses w' = <[KStr name := status]> (homework_statuses w)
       ∧ homework_statuses w' !! KStr name ≠ homework_statuses w !! KStr name
       ∧ ∀ k, k ≠ KStr name →
              homework_statuses w' !! k = homework_statuses w !! k)
    ∧ (homework_statuses w !! KStr name = Some status →
       message = EmptyString ∧ homework_statuses w' = homework_statuses w).
Proof.
  intros Hitem Hverdict.
  rewrite (parse_status_item _ _ _ _ w Hitem Hverdict).
  case_bool_decide as Hseen.
  - eexists _, _, _. split; [done|]. split; [done|]. split; [|done].
    intros [Hnone|(old & Hold & Hne)]; congruence.
  - eexists _, _, _. split; [done|]. split; [done|]. split; [|done].
    intros _. simpl. split; [done|]. split; [done|]. split.
    + rewrite lookup_insert_eq. congruence.
    + intros k Hk. by rewrite lookup_insert_ne.
Qed.

(** C10, as the code has it: on every failure path of [get_api_answer] (the
    request fails, the status code is not 200, the body does not decode) the
    exception of the [try] meets [except requests.RequestException():], and
    the call raises [TypeError] to its caller: nothing is logged in the
    function, and [None] is not returned. *)
Theorem C10_fetch_failure_raises e cfg timestamp w :
  (∃ msg, endpoint e timestamp = Unreachable msg)
  ∨ (∃ code content, endpoint e timestamp = Response code content ∧ code ≠ 200)
  ∨ (∃ msg, endpoint e timestamp = Response 200 (Invalid msg)) →
  get_api_answer py_repr e cfg timestamp w
  = (Raise (TypeError catching_instance),
     after w [HttpGet (authorization cfg) timestamp]).
Proof.
  rewrite get_api_answer_spec, get_api_answer_try_spec.
  intros [[msg ->]|[(code & content & -> & Hcode)|[msg ->]]]; simpl; [done| |done].
  by rewrite bool_decide_eq_false_2.
Qed.

End Properties.

(** ** The properties on the inputs of the examples *)

(** The second iteration of the end-to-end example: the same [hw1] in
    review, and the bot is called with the empty text. *)
Lemma C1_bot_called_without_transition_witness :
  main_iteration quoted endpoint_hw1 cfg1 bot1 (JNum 2000) after_first_tick
  = (Ok (JNum 2000),
     after after_first_tick
       [HttpGet "OAuth practicum-token" (JNum 2000);
        Log ModuleLogger DEBUG "No new statuses";
        BotSend bot1 (Some "42") EmptyString;
        Log RootLogger ERROR "Error sending message: Message text is empty";
        Sleep 600]).
Proof.
  apply (C1_bot_called_without_transition quoted endpoint_hw1 cfg1 bot1
           (JNum 2000) after_first_tick response1 hw1 [] (JNum 2000)
           "hw1" "reviewing" "Работа взята на проверку ревьюером.").
  - reflexivity.
  - reflexivity.
  - reflexivity.
  - split; reflexivity.
  - vm_compute. reflexivity.
  - vm_compute. reflexivity.
Defined.

(** A response of status 500: the caller of [get_api_answer] gets a
    [TypeError] whose message does not carry the code. *)
Lemma C2_counterexample :
  get_api_answer quoted endpoint_500 cfg1 (JNum 1000) world0
  = (Raise (TypeError
              "catching classes that do not inherit from BaseException is not allowed"),
     after world0 [HttpGet "OAuth practicum-token" (JNum 1000)]).
Proof. vm_compute. reflexivity. Qed.

Lemma C2_status_code_error_stays_inside_witness :
  (get_api_answer_try endpoint_500 cfg1 (JNum 1000) world0).1
  = Raise (StatusCodeError "Status code is different from 200 : 500")
  ∧ is_StatusCodeError (get_api_answer quoted endpoint_500 cfg1 (JNum 1000) world0).1
    = false.
Proof.
  apply (C2_status_code_error_stays_inside quoted endpoint_500 cfg1 (JNum 1000)
           world0 500 (Invalid "Expecting value")).
  - reflexivity.
  - lia.
Defined.



(** The endpoint answers with a [current_date] before the timestamp: the
    timestamp goes from 1000 down to 500. *)
Lemma C4_counterexample :
  main_iteration quoted endpoint_behind cfg1 bot1 (JNum 1000) world0
  = (Ok (JNum 500),
     after world0 [HttpGet "OAuth practicum-token" (JNum 1000); Sleep 600]).
Proof. vm_compute. reflexivity. Qed.

(** The end-to-end example of the specification: two iterations with
    [current_date] 2000, from 1000. *)
Lemma C4_timestamp_follows_current_date_witness :
  ∃ (n1 n2 : Z) w1 w2,
    main_loop quoted [endpoint_hw1] cfg1 bot1 (JNum 1000) world0
    = (Ok (JNum n1), w1)
    ∧ main_loop quoted ([endpoint_hw1] ++ [endpoint_hw1]) cfg1 bot1 (JNum 1000) world0
      = (Ok (JNum n2), w2)
    ∧ 1000 ≤ n1 ∧ n1 ≤ n2.
Proof.
  apply (proj2 (C4_timestamp_follows_current_date quoted cfg1 bot1)
           [endpoint_hw1] [endpoint_hw1] 1000 world0).
  simpl. split.
  - intros d v Hd Hv. simpl in Hd. injection Hd as <-.
    simpl in Hv. injection Hv as <-.
    exists 1000, 2000. repeat split; lia.
  - intros timestamp' w' Hstep. vm_compute in Hstep.
    injection Hstep as <- <-. split; [|intros; exact I].
    intros d v Hd Hv. simpl in Hd. injection Hd as <-.
    simpl in Hv. injection Hv as <-.
    exists 2000, 2000. repeat split; lia.
Defined.

(** [hw1] is already stored in review: the first of two calls in succession
    returns the empty string. *)
Lemma C5_counterexample :
  parse_status (JDict hw1) seen_hw1
  = (Ok EmptyString, after seen_hw1 [Log ModuleLogger DEBUG "No new statuses"]).
Proof. vm_compute. reflexivity. Qed.

Lemma C5_parse_status_twice_witness :
  ∃ message w1 w2,
    parse_status (JDict hw1) world0 = (Ok message, w1)
    ∧ parse_status (JDict hw1) w1 = (Ok EmptyString, w2)
    ∧ homework_statuses w1 !! KStr "hw1" = Some "reviewing"
    ∧ homework_statuses w2 = homework_statuses w1
    ∧ (homework_statuses world0 !! KStr "hw1" ≠ Some "reviewing" →
       message = hw1_message ∧ message ≠ EmptyString)
    ∧ (homework_statuses world0 !! KStr "hw1" = Some "reviewing" →
       message = EmptyString).
Proof.
  apply (C5_parse_status_twice hw1 "hw1" "reviewing"
           "Работа взята на проверку ревьюером." world0).
  - split; reflexivity.
  - vm_compute. reflexivity.
Defined.

Lemma C6_missing_keys_named_together_witness :
  check_response (JDict []) world0
  = (Raise (KeyError (SStr "Keys are missing: homeworks, current_date")),
     after world0 [Log RootLogger ERROR "Keys are missing: homeworks, current_date"]).
Proof.
  apply (proj1 (C6_missing_keys_named_together [] world0 (or_introl eq_refl))).
Defined.

(** The three values are present and not empty, and the library refuses
    the token, which has no [:]: [main] ends before the loop. *)
Lemma C8_counterexample :
  check_tokens cfg1 = true
  ∧ main quoted validate_token cfg1 1000 [endpoint_hw1] world0
    = (Raise (InvalidToken "Invalid token"), world0).
Proof. split; vm_compute; reflexivity. Qed.

Lemma C8_startup_witness :
  main quoted validate_token cfg_empty_chat 1000 [endpoint_hw1] world0
  = (Raise (ValueError "Missing environment variables"),
     after world0 [Log ModuleLogger CRITICAL
                     "One of the environment variables is missing"])
  ∧ main quoted validate_token cfg1 1000 [endpoint_hw1] world0
    = (Raise (InvalidToken "Invalid token"), world0)
  ∧ ∃ timestamp' w' (evs : list event),
      main quoted validate_token cfg2 1000 [endpoint_hw1] world0 = (Ok timestamp', w')
      ∧ trace w' = (trace world0 ++ HttpGet "OAuth practicum-token" (JNum 1000) :: evs)%list
      ∧ polls w' = (polls world0 + 1)%nat.
Proof.
  split; [|split].
  - apply (proj1 (C8_startup quoted validate_token cfg_empty_chat 1000
                    endpoint_hw1 [] world0)).
    left. right. reflexivity.
  - apply (proj2 (C8_startup quoted validate_token cfg1 1000 endpoint_hw1 [] world0)).
    repeat split; eexists; (split; [reflexivity | discriminate]).
  - apply (proj2 (C8_startup quoted validate_token cfg2 1000 endpoint_hw1 [] world0)).
    repeat split; eexists; (split; [reflexivity | discriminate]).
Defined.

Lemma C9_parse_status_frame_witness :
  ∃ message w' record,
    parse_status (JDict hw1) world0 = (Ok message, w')
    ∧ trace w' = (trace world0 ++ [Log ModuleLogger DEBUG record])%list
    ∧ (homework_statuses world0 !! KStr "hw1" = None
       ∨ (∃ old, homework_statuses world0 !! KStr "hw1" = Some old
                 ∧ old ≠ "reviewing") →
       message = hw1_message
       ∧ homework_statuses w' = <[KStr "hw1" := "reviewing"]> (homework_statuses world0)
       ∧ homework_statuses w' !! KStr "hw1" ≠ homework_statuses world0 !! KStr "hw1"
       ∧ ∀ k, k ≠ KStr "hw1" →
              homework_statuses w' !! k = homework_statuses world0 !! k)
    ∧ (homework_statuses world0 !! KStr "hw1" = Some "reviewing" →
       message = EmptyString ∧ homework_statuses w' = homework_statuses world0).
Proof.
  apply (C9_parse_status_frame hw1 "hw1" "reviewing"
           "Работа взята на проверку ревьюером." world0).
  - split; reflexivity.
  - vm_compute. reflexivity.
Defined.

(** The request fails: [get_api_answer] raises, and what the iteration logs
    and reports is that [TypeError]; [check_response] is not reached. *)
Lemma C10_fetch_failure_raises_witness :
  get_api_answer quoted endpoint_down cfg1 (JNum 1000) world0
  = (Raise (TypeError catching_instance),
     after world0 [HttpGet "OAuth practicum-token" (JNum 1000)]).
Proof.
  apply (C10_fetch_failure_raises quoted endpoint_down cfg1 (JNum 1000) world0).
  left. exists "Connection refused". reflexivity.
Defined.

(** ** Further properties of the functions *)

Section Further.

Variable py_repr : string → string.
Variable Bot_init_error : option string → option exn.

Local Arguments String.append : simpl never.

(** [parse_status] on an item with a recognized status, whatever the type
    of its name. *)
Lemma parse_status_item_of d name status verdict w :
  ItemOf d name status →
  HOMEWORK_VERDICTS !! status = Some verdict →
  parse_status (JDict d) w =
  if bool_decide (homework_statuses w !! key_of name = Some status)
  then (Ok EmptyString, after w [Log ModuleLogger DEBUG "No new statuses"])
  else (Ok (transition_message (str_scalar name) verdict),
        World (<[key_of name := status]> (homework_statuses w))
              (trace w ++ [Log ModuleLogger DEBUG
                             (transition_message (str_scalar name) verdict)])).
Proof.
  intros (homework_name & Hname & Hscalar & Hstatus) Hverdict.
  unfold parse_status. unfold_M. simpl.
  rewrite (dict_has_true _ _ _ Hname), (dict_has_true _ _ _ Hstatus). simpl.
  rewrite Hname, Hstatus. simpl. rewrite Hverdict. simpl.
  unfold hashable. rewrite Hscalar. rewrite transition_condition.
  case_bool_decide; simpl; reflexivity.
Qed.

(** [parse_status] returns only on an item as above. *)
Lemma parse_status_ok homework w message w' :
  parse_status homework w = (Ok message, w') →
  ∃ d name status verdict,
    homework = JDict d ∧ ItemOf d name status
    ∧ HOMEWORK_VERDICTS !! status = Some verdict.
Proof.
  unfold parse_status. unfold_M.
  destruct (missing_in homework ["status"; "homework_name"]) as [missing|err];
    [|discriminate].
  destruct (nonempty missing); [discriminate|].
  destruct (py_getitem homework "homework_name") as [homework_name|err] eqn:Hname;
    [|discriminate].
  destruct (py_getitem homework "status") as [hw_status|err] eqn:Hstatus;
    [|discriminate].
  destruct (hashable hw_status) as [status_value|err] eqn:Hhash; [|discriminate].
  destruct (verdict_of status_value) as [[status verdict]|] eqn:Hverdict;
    [|discriminate].
  destruct (hashable homework_name) as [name|err] eqn:Hhash'; [|discriminate].
  intros _.
  destruct homework as [| | | | |d]; try discriminate. simpl in Hname, Hstatus.
  destruct (dict_get d "homework_name") as [homework_name'|] eqn:Hn;
    [|discriminate].
  destruct (dict_get d "status") as [hw_status'|] eqn:Hs; [|discriminate].
  simplify_eq.
  destruct status_value as [| | |s]; try discriminate. simpl in Hverdict.
  destruct (HOMEWORK_VERDICTS !! s) as [verdict'|] eqn:Hv; [|discriminate].
  simpl in Hverdict. simplify_eq.
  unfold hashable in *.
  destruct (as_scalar hw_status) as [v|] eqn:Hv1; [|discriminate].
  destruct (as_scalar homework_name) as [v'|] eqn:Hv2; [|discriminate].
  simplify_eq. destruct hw_status; try discriminate. simpl in Hv1. simplify_eq.
  exists d, name, status, verdict. split; [done|]. split; [|done].
  exists homework_name. done.
Qed.

(** What one call of [parse_status] does to [homework_statuses], together
    with what it returns. *)
Lemma parse_status_step homework w :
  match parse_status homework w with
  | (Raise _, w') => homework_statuses w' = homework_statuses w
  | (Ok message, w') =>
      (message = EmptyString ∧ homework_statuses w' = homework_statuses w)
      ∨ ∃ name status verdict,
          HOMEWORK_VERDICTS !! status = Some verdict
          ∧ message = transition_message (str_scalar name) verdict
          ∧ homework_statuses w !! key_of name ≠ Some status
          ∧ homework_statuses w' = <[key_of name := status]> (homework_statuses w)
  end.
Proof.
  destruct (parse_status homework w) as [[message|err] w'] eqn:Hrun.
  - destruct (parse_status_ok _ _ _ _ Hrun) as (d & name & status & verdict & -> & Hitem & Hverdict).
    rewrite (parse_status_item_of _ _ _ _ _ Hitem Hverdict) in Hrun.
    case_bool_decide; simplify_eq; [by left|].
    right. by exists name, status, verdict.
  - destruct (parse_status_effects homework w) as (_ & _ & _ & Hsame).
    rewrite Hrun in Hsame. by eapply Hsame.
Qed.

Lemma transition_message_nonempty name verdict :
  transition_message name verdict ≠ EmptyString.
Proof. done. Qed.

Lemma insert_changes (m : gmap pykey string) k v :
  m !! k ≠ Some v → <[k := v]> m ≠ m.
Proof. intros Hne Heq. apply Hne. rewrite <- Heq. apply lookup_insert_eq. Qed.

(** The [try] of the loop, when it raises: after the request only records
    of the log were added, and [homework_statuses] is as it was. *)
Lemma main_try_raise_shape e cfg bot timestamp w err w1 :
  main_try py_repr e cfg bot timestamp w = (Raise err, w1) →
  ∃ logs : list event,
    forallb is_Log logs = true
    ∧ trace w1 = (trace w ++ HttpGet (authorization cfg) timestamp :: logs)%list
    ∧ homework_statuses w1 = homework_statuses w.
Proof.
  unfold main_try, bind at 1.
  rewrite get_api_answer_spec, get_api_answer_try_spec.
  set (w0 := after w [HttpGet (authorization cfg) timestamp]).
  set (fetched := match endpoint e timestamp with
                  | Unreachable _ => _ | Response _ _ => _ end).
  destruct fetched as [response|err0].
  2: { intros [= <- <-]. by exists []. }
  unfold bind at 1.
  destruct (check_response_effects response w0) as (evs & Hw2 & Hlogs).
  destruct (check_response response w0) as [[b|err0] w2] eqn:Hcheck.
  2: { intros [= <- <-]. simpl in Hw2. subst w2. exists evs. simpl.
       by rewrite <- app_assoc. }
  apply check_response_ok in Hcheck as (d & l & -> & Hh & [cd Hc] & -> & ->).
  unfold_M. simpl. rewrite Hh, Hc. simpl.
  destruct l as [|homework l']; simpl; [discriminate|].
  destruct (parse_status_effects homework w0) as (evs' & Htrace & Hlogs' & Hsame).
  destruct (parse_status homework w0) as [[status|err0] w3]; simpl.
  { by rewrite send_message_spec. }
  intros [= <- <-]. simpl in *. exists evs'.
  rewrite Htrace, <- app_assoc. simpl. eauto.
Qed.

(** One iteration of the loop: the request, then records of the log, then
    at most one call of the bot with its record, then the sleep; and at most
    one entry of [homework_statuses] is set. *)
Lemma main_iteration_shape e cfg bot timestamp w :
  ∃ timestamp' w' (logs sends : list event),
    main_iteration py_repr e cfg bot timestamp w = (Ok timestamp', w')
    ∧ trace w'
      = (trace w ++ HttpGet (authorization cfg) timestamp
           :: logs ++ sends ++ [Sleep RETRY_PERIOD])%list
    ∧ forallb is_Log logs = true
    ∧ (sends = []
       ∨ ∃ text, sends = [BotSend bot (TELEGRAM_CHAT_ID cfg) text;
                          delivery_log e bot (TELEGRAM_CHAT_ID cfg) text]
                 ∧ notification py_repr text)
    ∧ (homework_statuses w' = homework_statuses w
       ∨ ∃ name status verdict,
           HOMEWORK_VERDICTS !! status = Some verdict
           ∧ homework_statuses w' = <[key_of name := status]> (homework_statuses w)).
Proof.
  rewrite main_iteration_spec.
  destruct (main_try py_repr e cfg bot timestamp w) as [[timestamp'|err] w1] eqn:Hrun.
  - destruct (main_try_ok _ _ _ _ _ _ _ _ Hrun) as (d & l & He & Hh & Hc).
    rewrite (main_try_valid _ _ _ _ _ _ _ _ _ He Hh Hc) in Hrun. simpl in Hrun.
    destruct l as [|homework l'].
    + simplify_eq. eexists timestamp', _, [], []. split; [done|]. simpl.
      rewrite <- app_assoc. simpl. auto.
    + set (w0 := after w [HttpGet (authorization cfg) timestamp]) in *.
      destruct (parse_status_effects homework w0) as (logs & Htrace & Hlogs & _).
      pose proof (parse_status_step homework w0) as Hstep.
      destruct (parse_status homework w0) as [[status|err] w2]; [|discriminate].
      simplify_eq. simpl in Htrace.
      eexists _, _, logs, [_; _]. split; [done|]. simpl.
      rewrite Htrace, <- !app_assoc. simpl. split; [done|]. split; [done|].
      destruct Hstep as [[-> Hsame]|(name & status' & verdict & Hv & -> & _ & Hset)].
      * split; [|by left]. right. eexists. split; [done|]. by left.
      * split; [|right; eauto]. right. eexists. split; [done|].
        right; left. eauto.
  - destruct (main_try_raise_shape _ _ _ _ _ _ _ Hrun) as (logs & Hlogs & Htrace & Hsame).
    eexists _, _, (logs ++ [_])%list, [_; _]. split; [done|]. simpl.
    rewrite Htrace, <- ?app_assoc. simpl. rewrite <- ?app_assoc. simpl.
    split; [done|]. split.
    { rewrite forallb_app, Hlogs. done. }
    split; [|by left]. right. eexists. split; [done|].
    right; right. eauto.
Qed.

Lemma delivery_log_is_Log e bot chat_id text :
  is_Log (delivery_log e bot chat_id text) = true.
Proof. unfold delivery_log. by destruct (bot_api e bot chat_id text). Qed.

Lemma is_Log_not_BotSend evs :
  forallb is_Log evs = true → filter is_BotSend evs = [].
Proof.
  induction evs as [|[] evs IH]; simpl; try done.
Qed.

Lemma is_Log_not_Sleep evs :
  forallb is_Log evs = true → forallb (λ ev, negb (is_Sleep ev)) evs = true.
Proof. induction evs as [|[] evs IH]; simpl; try done. Qed.

(** The table after an iteration, from the table before it. *)
Lemma main_loop_statuses (P : gmap pykey string → Prop) ticks cfg bot :
  (∀ m name status verdict,
     P m → HOMEWORK_VERDICTS !! status = Some verdict →
     P (<[key_of name := status]> m)) →
  ∀ timestamp w,
    P (homework_statuses w) →
    P (homework_statuses (main_loop py_repr ticks cfg bot timestamp w).2).
Proof.
  intros Hset. induction ticks as [|e ticks IH]; intros timestamp w Hw; simpl;
    [done|].
  unfold bind.
  destruct (main_iteration_shape e cfg bot timestamp w)
    as (timestamp1 & w1 & _ & _ & -> & _ & _ & _ & Htable).
  apply IH.
  destruct Htable as [->|(name & status & verdict & Hverdict & ->)]; eauto.
Qed.

Lemma main_statuses (P : gmap pykey string → Prop) cfg now ticks w :
  (∀ m name status verdict,
     P m → HOMEWORK_VERDICTS !! status = Some verdict →
     P (<[key_of name := status]> m)) →
  P (homework_statuses w) →
  P (homework_statuses (main py_repr Bot_init_error cfg now ticks w).2).
Proof.
  intros Hset Hw. unfold main, bind at 1, new_Bot.
  destruct (check_tokens cfg); simpl; [|done].
  destruct (Bot_init_error (TELEGRAM_TOKEN cfg)) as [error|]; simpl; [done|].
  by apply main_loop_statuses.
Qed.

(** An iteration makes its request first, and no other. *)
Lemma main_iteration_one_request e cfg bot timestamp w :
  ∃ timestamp' w' (evs : list event),
    main_iteration py_repr e cfg bot timestamp w = (Ok timestamp', w')
    ∧ trace w' = (trace w ++ HttpGet (authorization cfg) timestamp :: evs)%list
    ∧ forallb (λ ev, negb (is_HttpGet ev)) evs = true.
Proof.
  destruct (main_iteration_shape e cfg bot timestamp w)
    as (timestamp' & w' & logs & sends & Hrun & Htrace & Hlogs & Hsends & _).
  exists timestamp', w', (logs ++ sends ++ [Sleep RETRY_PERIOD])%list.
  split; [done|]. split; [done|].
  rewrite !forallb_app, (is_Log_not_HttpGet _ Hlogs). simpl.
  destruct Hsends as [->|(text & -> & _)]; simpl; [done|].
  pose proof (delivery_log_is_Log e bot (TELEGRAM_CHAT_ID cfg) text) as Hlog.
  by destruct (delivery_log e bot (TELEGRAM_CHAT_ID cfg) text).
Qed.

(** X1: [check_tokens] answers [True] exactly when the three values are
    present and not empty, and [False] exactly when one of them is absent or
    empty. *)
Theorem X1_check_tokens_iff cfg :
  (check_tokens cfg = true
   ↔ present (TELEGRAM_CHAT_ID cfg) ∧ present (TELEGRAM_TOKEN cfg)
     ∧ present (PRACTICUM_TOKEN cfg))
  ∧ (check_tokens cfg = false
     ↔ absent_or_empty (TELEGRAM_CHAT_ID cfg) ∨ absent_or_empty (TELEGRAM_TOKEN cfg)
       ∨ absent_or_empty (PRACTICUM_TOKEN cfg)).
Proof.
  rewrite check_tokens_spec, <- !truthy_present, <- !truthy_absent_or_empty.
  split.
  - rewrite !andb_true_iff. tauto.
  - rewrite !andb_false_iff. tauto.
Qed.

(** X2: [check_response] returns exactly on a dict that has [homeworks], a
    list (the empty list too), and [current_date]; it then returns [True],
    logs nothing and changes nothing. *)
Theorem X2_check_response_accepts response w r w' :
  check_response response w = (Ok r, w')
  ↔ r = true ∧ w' = w
    ∧ ∃ d l cd, response = JDict d
                ∧ dict_get d "homeworks" = Some (JList l)
                ∧ dict_get d "current_date" = Some cd.
Proof.
  split.
  - intros Hrun.
    apply check_response_ok in Hrun as (d & l & -> & Hh & [cd Hc] & -> & ->).
    eauto 10.
  - intros (-> & -> & d & l & cd & -> & Hh & Hc).
    by eapply check_response_valid.
Qed.

(** X3: when [check_response] raises, it has written exactly one error
    record to the log, whose text is the message of the exception (a
    [TypeError] or a [KeyError]), and [homework_statuses] is as it was. *)
Theorem X3_check_response_failure_logged response w err w' :
  check_response response w = (Raise err, w') →
  ∃ msg, (err = TypeError msg ∨ err = KeyError (SStr msg))
         ∧ w' = after w [Log RootLogger ERROR msg].
Proof.
  unfold check_response. unfold_M.
  destruct response as [| | | | |d]; simpl;
    try (intros [= <- <-]; eexists; split; [by left|done]).
  destruct (dict_has d "homeworks") eqn:Hh, (dict_has d "current_date");
    simpl; try (intros [= <- <-]; eexists; split; [by right|done]).
  destruct (dict_get d "homeworks") as [homeworks|] eqn:Hget.
  - destruct (is_list homeworks); simpl; [discriminate|].
    intros [= <- <-]. eexists. split; [by left|done].
  - by rewrite (dict_has_false _ _ Hget) in Hh.
Qed.

(** X4: the two type errors of [check_response] name the type they found: a
    response that is not a dict, and, in a dict with both keys, a
    [homeworks] that is not a list. *)
Theorem X4_check_response_type_errors response w :
  (is_dict response = false →
   let msg := "Incorrect type of API response: " ++ type_repr response in
   check_response response w
   = (Raise (TypeError msg), after w [Log RootLogger ERROR msg]))
  ∧ (∀ d homeworks cd,
       response = JDict d →
       dict_get d "homeworks" = Some homeworks →
       dict_get d "current_date" = Some cd →
       is_list homeworks = false →
       let msg := "Incorrect type of homework: " ++ type_repr homeworks in
       check_response response w
       = (Raise (TypeError msg), after w [Log RootLogger ERROR msg])).
Proof.
  split.
  - intros Hdict. unfold check_response. unfold_M. by rewrite Hdict.
  - intros d homeworks cd -> Hh Hc Hlist. unfold check_response. unfold_M. simpl.
    rewrite (dict_has_true _ _ _ Hh), (dict_has_true _ _ _ Hc). simpl.
    by rewrite Hh, Hlist.
Qed.

(** X5: [parse_status] returns (rather than raises) exactly on a dict whose
    [status] is a [str] that is a key of [HOMEWORK_VERDICTS] and whose
    [homework_name] is a value a dict takes as a key. *)
Theorem X5_parse_status_returns_iff homework w :
  (∃ message w', parse_status homework w = (Ok message, w'))
  ↔ ∃ d name status verdict,
      homework = JDict d ∧ ItemOf d name status
      ∧ HOMEWORK_VERDICTS !! status = Some verdict.
Proof.
  split.
  - intros (message & w' & Hrun). by eapply parse_status_ok.
  - intros (d & name & status & verdict & -> & Hitem & Hverdict).
    rewrite (parse_status_item_of _ _ _ _ _ Hitem Hverdict).
    case_bool_decide; eauto.
Qed.

(** X6: on a dict in which [status] or [homework_name] (or both) is
    missing, [parse_status] logs and raises one [KeyError] whose message
    lists every missing subkey, and [homework_statuses] is as it was. *)
Theorem X6_parse_status_missing_subkeys d w :
  dict_get d "status" = None ∨ dict_get d "homework_name" = None →
  let missing_subkeys :=
    List.filter (λ subkey, negb (dict_has d subkey)) ["status"; "homework_name"] in
  let msg := "Subkeys are missing: " ++ String.concat ", " missing_subkeys in
  parse_status (JDict d) w
  = (Raise (KeyError (SStr msg)), after w [Log RootLogger ERROR msg])
  ∧ (dict_get d "status" = None → In "status" missing_subkeys)
  ∧ (dict_get d "homework_name" = None → In "homework_name" missing_subkeys).
Proof.
  intros Hmissing. unfold parse_status. unfold_M.
  destruct (dict_get d "status") as [hw_status|] eqn:Hs;
    destruct (dict_get d "homework_name") as [homework_name|] eqn:Hn;
    try (destruct Hmissing; discriminate); simpl;
    rewrite ?(dict_has_true _ _ _ Hs), ?(dict_has_true _ _ _ Hn),
      ?(dict_has_false _ _ Hs), ?(dict_has_false _ _ Hn); simpl;
    (split; [done|]); split; intros; try discriminate; auto.
Qed.

(** X7: on a dict with both subkeys whose [status] is a [str] that is not a
    key of [HOMEWORK_VERDICTS], [parse_status] logs and raises a [KeyError]
    that quotes the status; the name is not looked at, and
    [homework_statuses] is as it was. *)
Theorem X7_parse_status_unknown_status d homework_name status w :
  dict_get d "homework_name" = Some homework_name →
  dict_get d "status" = Some (JStr status) →
  HOMEWORK_VERDICTS !! status = None →
  let msg := "Incorrect status of homework: " ++ status in
  parse_status (JDict d) w
  = (Raise (KeyError (SStr msg)), after w [Log RootLogger ERROR msg]).
Proof.
  intros Hname Hstatus Hverdict. unfold parse_status. unfold_M. simpl.
  rewrite (dict_has_true _ _ _ Hname), (dict_has_true _ _ _ Hstatus). simpl.
  rewrite Hname, Hstatus. simpl. by rewrite Hverdict.
Qed.

(** X8: whatever it is given, [parse_status] leaves [homework_statuses] as
    it was when it raises, and when it returns, the text it returns is empty
    exactly when [homework_statuses] is as it was. *)
Theorem X8_parse_status_message_iff_change homework w :
  match parse_status homework w with
  | (Raise _, w') => homework_statuses w' = homework_statuses w
  | (Ok message, w') =>
      message = EmptyString ↔ homework_statuses w' = homework_statuses w
  end.
Proof.
  pose proof (parse_status_step homework w) as Hstep.
  destruct (parse_status homework w) as [[message|err] w']; [|done].
  destruct Hstep as [[-> Hsame]|(name & status & verdict & _ & -> & Hne & ->)];
    [done|].
  split; intros Habs.
  - by apply transition_message_nonempty in Habs.
  - by apply insert_changes in Habs.
Qed.

(** X9: the statuses stored in [homework_statuses] stay keys of
    [HOMEWORK_VERDICTS] through a whole run of [main], whatever the endpoint
    and the bot do. *)
Theorem X9_statuses_stay_recognized cfg now ticks w :
  statuses_recognized w →
  statuses_recognized (main py_repr Bot_init_error cfg now ticks w).2.
Proof.
  intros Hw. unfold statuses_recognized.
  apply (main_statuses
           (λ m, ∀ k status, m !! k = Some status →
                             is_Some (HOMEWORK_VERDICTS !! status))); [|done].
  intros m name status verdict Hm Hverdict k status'.
  rewrite lookup_insert. case_decide; [|by apply Hm].
  intros [= <-]. by rewrite Hverdict.
Qed.

(** X10: a name that has an entry in [homework_statuses] keeps one through
    a whole run of [main]: entries are set, never removed. *)
Theorem X10_entries_never_removed cfg now ticks w k :
  is_Some (homework_statuses w !! k) →
  is_Some (homework_statuses (main py_repr Bot_init_error cfg now ticks w).2 !! k).
Proof.
  apply (main_statuses (λ m, is_Some (m !! k))).
  intros m name status verdict Hm _.
  rewrite lookup_insert. by case_decide.
Qed.

(** X11: an iteration whose response validates with an empty list of
    [homeworks] calls neither [parse_status] nor the bot: it makes the
    request, takes [current_date] as the new timestamp and sleeps. *)
Theorem X11_empty_homeworks_iteration e cfg bot timestamp w d cd :
  endpoint e timestamp = Response 200 (Decoded (JDict d)) →
  dict_get d "homeworks" = Some (JList []) →
  dict_get d "current_date" = Some cd →
  main_iteration py_repr e cfg bot timestamp w
  = (Ok cd, after w [HttpGet (authorization cfg) timestamp; Sleep RETRY_PERIOD]).
Proof.
  intros He Hh Hc.
  rewrite main_iteration_spec, (main_try_valid _ _ _ _ _ _ _ _ _ He Hh Hc).
  cbv zeta iota beta. by rewrite after_after.
Qed.

(** X12: an iteration whose response validates and whose first item shows a
    transition stores the status for the name, logs the message, calls the
    bot once with it, takes [current_date] as the new timestamp and sleeps;
    this does not depend on whether the bot delivers. *)
Theorem X12_transition_iteration
    e cfg bot timestamp w d item l cd name status verdict :
  endpoint e timestamp = Response 200 (Decoded (JDict d)) →
  dict_get d "homeworks" = Some (JList (JDict item :: l)) →
  dict_get d "current_date" = Some cd →
  Item item name status →
  HOMEWORK_VERDICTS !! status = Some verdict →
  homework_statuses w !! KStr name ≠ Some status →
  let message := transition_message name verdict in
  main_iteration py_repr e cfg bot timestamp w
  = (Ok cd,
     World (<[KStr name := status]> (homework_statuses w))
       (trace w ++ [HttpGet (authorization cfg) timestamp;
                    Log ModuleLogger DEBUG message;
                    BotSend bot (TELEGRAM_CHAT_ID cfg) message;
                    delivery_log e bot (TELEGRAM_CHAT_ID cfg) message;
                    Sleep RETRY_PERIOD])).
Proof.
  intros He Hh Hc Hitem Hverdict Hnew.
  rewrite main_iteration_spec, (main_try_valid _ _ _ _ _ _ _ _ _ He Hh Hc).
  cbv zeta. rewrite (parse_status_item _ _ _ _ _ Hitem Hverdict).
  rewrite bool_decide_eq_false_2 by done.
  unfold after. simpl. by rewrite <- !app_assoc.
Qed.

(** X13: only the first item of [homeworks] counts: two responses that
    validate with the same first item and the same [current_date] give the
    same iteration, whatever follows the first item. *)
Theorem X13_only_first_item e e' cfg bot timestamp w d d' homework l l' cd :
  endpoint e timestamp = Response 200 (Decoded (JDict d)) →
  endpoint e' timestamp = Response 200 (Decoded (JDict d')) →
  dict_get d "homeworks" = Some (JList (homework :: l)) →
  dict_get d' "homeworks" = Some (JList (homework :: l')) →
  dict_get d "current_date" = Some cd →
  dict_get d' "current_date" = Some cd →
  bot_api e = bot_api e' →
  main_iteration py_repr e cfg bot timestamp w
  = main_iteration py_repr e' cfg bot timestamp w.
Proof.
  intros He He' Hh Hh' Hc Hc' Hbot.
  rewrite !main_iteration_spec.
  rewrite (main_try_valid _ _ _ _ _ _ _ _ _ He Hh Hc),
    (main_try_valid _ _ _ _ _ _ _ _ _ He' Hh' Hc').
  unfold delivery_log. by rewrite Hbot.
Qed.

(** X14: [get_api_answer] returns exactly when the status code is 200 and
    the body decodes, and what it returns is the decoded body; it has then
    made one request, with the token in the header and the timestamp as
    [from_date], and nothing else. *)
Theorem X14_get_api_answer_returns_iff e cfg timestamp w j w' :
  get_api_answer py_repr e cfg timestamp w = (Ok j, w')
  ↔ endpoint e timestamp = Response 200 (Decoded j)
    ∧ w' = after w [HttpGet (authorization cfg) timestamp].
Proof.
  rewrite get_api_answer_spec, get_api_answer_try_spec. split.
  - destruct (endpoint e timestamp) as [msg|code [msg|j']]; try done;
      case_bool_decide; try done.
    intros [= -> <-]. by subst.
  - intros [-> ->]. done.
Qed.

(** X15: every iteration, failed or not, begins with the one request it
    makes and ends with the one sleep of [RETRY_PERIOD] seconds, and calls
    the bot at most once in between. *)
Theorem X15_iteration_shape e cfg bot timestamp w :
  ∃ evs : list event,
    trace (main_iteration py_repr e cfg bot timestamp w).2
    = (trace w ++ HttpGet (authorization cfg) timestamp
         :: evs ++ [Sleep RETRY_PERIOD])%list
    ∧ forallb (λ ev, negb (is_HttpGet ev)) evs = true
    ∧ forallb (λ ev, negb (is_Sleep ev)) evs = true
    ∧ (length (filter is_BotSend evs) ≤ 1)%nat.
Proof.
  destruct (main_iteration_shape e cfg bot timestamp w)
    as (timestamp' & w' & logs & sends & -> & Htrace & Hlogs & Hsends & _).
  exists (logs ++ sends)%list. simpl. rewrite Htrace, <- app_assoc.
  split; [done|].
  rewrite !forallb_app, filter_app, length_app.
  rewrite (is_Log_not_HttpGet _ Hlogs), (is_Log_not_Sleep _ Hlogs),
    (is_Log_not_BotSend _ Hlogs). simpl.
  destruct Hsends as [->|(text & -> & _)]; simpl; [auto|].
  pose proof (delivery_log_is_Log e bot (TELEGRAM_CHAT_ID cfg) text) as Hlog.
  destruct (delivery_log e bot (TELEGRAM_CHAT_ID cfg) text); try discriminate.
  simpl. split; [done|]. split; [done|]. lia.
Qed.

(** X16: whatever an iteration asks the bot to send goes to
    [TELEGRAM_CHAT_ID], and its text is the empty string, the message of a
    transition built from a verdict of [HOMEWORK_VERDICTS], or the report
    of a failure; nothing else is ever sent. *)
Theorem X16_texts_sent e cfg bot timestamp w :
  ∃ evs : list event,
    trace (main_iteration py_repr e cfg bot timestamp w).2 = (trace w ++ evs)%list
    ∧ ∀ b chat_id text,
        In (BotSend b chat_id text) evs →
        b = bot ∧ chat_id = TELEGRAM_CHAT_ID cfg ∧ notification py_repr text.
Proof.
  destruct (main_iteration_shape e cfg bot timestamp w)
    as (timestamp' & w' & logs & sends & -> & Htrace & Hlogs & Hsends & _).
  eexists. split; [exact Htrace|].
  intros b chat_id text [Hin|Hin]; [discriminate|].
  apply in_app_or in Hin as [Hin|Hin].
  { rewrite forallb_forall in Hlogs. by apply Hlogs in Hin. }
  apply in_app_or in Hin as [Hin|[Hin|[]]]; [|discriminate].
  destruct Hsends as [->|(text' & -> & Htext)]; [destruct Hin|].
  destruct Hin as [Hin|[Hin|[]]].
  - by simplify_eq.
  - pose proof (delivery_log_is_Log e bot (TELEGRAM_CHAT_ID cfg) text') as Hlog.
    by rewrite Hin in Hlog.
Qed.

(** X17: after an iteration whose [try] raised, the next iteration asks the
    endpoint with the same [from_date]. *)
Theorem X17_retry_same_from_date e1 e2 cfg bot timestamp w err w1 :
  main_try py_repr e1 cfg bot timestamp w = (Raise err, w1) →
  ∃ timestamp' w' (evs1 evs2 : list event),
    main_loop py_repr [e1; e2] cfg bot timestamp w = (Ok timestamp', w')
    ∧ trace w'
      = (trace w ++ HttpGet (authorization cfg) timestamp
           :: evs1 ++ HttpGet (authorization cfg) timestamp :: evs2)%list
    ∧ forallb (λ ev, negb (is_HttpGet ev)) evs1 = true
    ∧ forallb (λ ev, negb (is_HttpGet ev)) evs2 = true.
Proof.
  intros Hrun.
  destruct (main_iteration_one_request e1 cfg bot timestamp w)
    as (timestamp1 & w2 & evs1 & Hfirst & Htrace1 & Hevs1).
  assert (timestamp1 = timestamp) as ->.
  { rewrite main_iteration_spec, Hrun in Hfirst. by injection Hfirst as <- _. }
  destruct (main_iteration_one_request e2 cfg bot timestamp w2)
    as (timestamp' & w' & evs2 & Hsecond & Htrace2 & Hevs2).
  exists timestamp', w', evs1, evs2.
  split.
  - simpl. unfold bind. by rewrite Hfirst, Hsecond.
  - rewrite Htrace2, Htrace1, <- app_assoc. done.
Qed.

(** X18: a [status] that is a list or a dict makes the test against
    [HOMEWORK_VERDICTS] raise [TypeError] before anything is logged, and so
    does, for a recognized status, a [homework_name] that is a list or a
    dict in the test against [homework_statuses]; nothing is stored. *)
Theorem X18_parse_status_unhashable d homework_name hw_status w :
  dict_get d "homework_name" = Some homework_name →
  dict_get d "status" = Some hw_status →
  (is_list hw_status || is_dict hw_status = true →
   parse_status (JDict d) w
   = (Raise (TypeError ("unhashable type: '" ++ type_name hw_status ++ "'")), w))
  ∧ (∀ status verdict,
       hw_status = JStr status →
       HOMEWORK_VERDICTS !! status = Some verdict →
       is_list homework_name || is_dict homework_name = true →
       parse_status (JDict d) w
       = (Raise (TypeError ("unhashable type: '" ++ type_name homework_name ++ "'")),
          w)).
Proof.
  intros Hname Hstatus. split.
  - intros Hunhashable. unfold parse_status. unfold_M. simpl.
    rewrite (dict_has_true _ _ _ Hname), (dict_has_true _ _ _ Hstatus). simpl.
    rewrite Hname, Hstatus. simpl.
    by destruct hw_status.
  - intros status verdict -> Hverdict Hunhashable.
    unfold parse_status. unfold_M. simpl.
    rewrite (dict_has_true _ _ _ Hname), (dict_has_true _ _ _ Hstatus). simpl.
    rewrite Hname, Hstatus. simpl. rewrite Hverdict. simpl.
    by destruct homework_name.
Qed.

End Further.

(** ** The further properties on the inputs of the examples *)

Lemma X1_check_tokens_iff_witness :
  check_tokens cfg1 = true ∧ check_tokens cfg_empty_chat = false.
Proof.
  split.
  - apply (proj2 (proj1 (X1_check_tokens_iff cfg1))).
    repeat split; eexists; (split; [reflexivity | discriminate]).
  - apply (proj2 (proj2 (X1_check_tokens_iff cfg_empty_chat))).
    left. right. reflexivity.
Defined.

Lemma X2_check_response_accepts_witness :
  check_response (JDict response1) world0 = (Ok true, world0).
Proof.
  apply (proj2 (X2_check_response_accepts (JDict response1) world0 true world0)).
  split; [reflexivity|]. split; [reflexivity|].
  exists response1, [JDict hw1], (JNum 2000).
  repeat split; reflexivity.
Defined.

Lemma X3_check_response_failure_logged_witness :
  ∃ msg,
    (TypeError "Incorrect type of API response: <class 'NoneType'>" = TypeError msg
     ∨ TypeError "Incorrect type of API response: <class 'NoneType'>"
       = KeyError (SStr msg))
    ∧ after world0
        [Log RootLogger ERROR "Incorrect type of API response: <class 'NoneType'>"]
      = after world0 [Log RootLogger ERROR msg].
Proof.
  apply (X3_check_response_failure_logged JNull world0).
  vm_compute. reflexivity.
Defined.

Lemma X4_check_response_type_errors_witness :
  check_response (JNum 7) world0
  = (Raise (TypeError "Incorrect type of API response: <class 'int'>"),
     after world0
       [Log RootLogger ERROR "Incorrect type of API response: <class 'int'>"])
  ∧ check_response (JDict response_bad_homeworks) world0
    = (Raise (TypeError "Incorrect type of homework: <class 'str'>"),
       after world0
         [Log RootLogger ERROR "Incorrect type of homework: <class 'str'>"]).
Proof.
  split.
  - apply (proj1 (X4_check_response_type_errors (JNum 7) world0)). reflexivity.
  - apply (proj2 (X4_check_response_type_errors (JDict response_bad_homeworks) world0)
             response_bad_homeworks (JStr "none") (JNum 2000));
      reflexivity.
Defined.

Lemma X5_parse_status_returns_iff_witness :
  ∃ message w', parse_status (JDict hw1) world0 = (Ok message, w').
Proof.
  apply (proj2 (X5_parse_status_returns_iff (JDict hw1) world0)).
  exists hw1, (SStr "hw1"), "reviewing", "Работа взята на проверку ревьюером.".
  split; [reflexivity|]. split.
  - exists (JStr "hw1"). repeat split; reflexivity.
  - vm_compute. reflexivity.
Defined.

Lemma X6_parse_status_missing_subkeys_witness :
  parse_status (JDict hw_no_status) seen_hw1
  = (Raise (KeyError (SStr "Subkeys are missing: status")),
     after seen_hw1 [Log RootLogger ERROR "Subkeys are missing: status"]).
Proof.
  apply (proj1 (X6_parse_status_missing_subkeys hw_no_status seen_hw1
                  (or_introl eq_refl))).
Defined.

Lemma X7_parse_status_unknown_status_witness :
  parse_status (JDict hw_unknown_status) seen_hw1
  = (Raise (KeyError (SStr "Incorrect status of homework: lost")),
     after seen_hw1 [Log RootLogger ERROR "Incorrect status of homework: lost"]).
Proof.
  apply (X7_parse_status_unknown_status hw_unknown_status (JStr "hw1") "lost"
           seen_hw1).
  - reflexivity.
  - reflexivity.
  - vm_compute. reflexivity.
Defined.

Lemma X9_statuses_stay_recognized_witness :
  statuses_recognized
    (main quoted validate_token cfg2 1000 [endpoint_hw1_more; endpoint_500] seen_hw1).2.
Proof.
  apply (X9_statuses_stay_recognized quoted validate_token cfg2 1000
           [endpoint_hw1_more; endpoint_500] seen_hw1).
  intros k status Hk. unfold seen_hw1 in Hk. cbn [homework_statuses] in Hk.
  apply lookup_singleton_Some in Hk as [<- <-].
  vm_compute. eauto.
Defined.

Lemma X10_entries_never_removed_witness :
  is_Some
    (homework_statuses
       (main quoted validate_token cfg2 1000 [endpoint_behind; endpoint_500] seen_hw1).2
       !! KStr "hw1").
Proof.
  apply (X10_entries_never_removed quoted validate_token cfg2 1000
           [endpoint_behind; endpoint_500]
           seen_hw1 (KStr "hw1")).
  vm_compute. eauto.
Defined.

Lemma X11_empty_homeworks_iteration_witness :
  main_iteration quoted endpoint_clock cfg1 bot1 (JNum 1000) seen_hw1
  = (Ok (JNum 1600),
     after seen_hw1 [HttpGet "OAuth practicum-token" (JNum 1000); Sleep 600]).
Proof.
  apply (X11_empty_homeworks_iteration quoted endpoint_clock cfg1 bot1 (JNum 1000)
           seen_hw1
           [("homeworks", JList []); ("current_date", JNum 1600)] (JNum 1600));
    reflexivity.
Defined.

(** The first iteration of the end-to-end example of the specification. *)
Lemma X12_transition_iteration_witness :
  main_iteration quoted endpoint_hw1 cfg1 bot1 (JNum 1000) world0
  = (Ok (JNum 2000),
     World (<[KStr "hw1" := "reviewing"]> (homework_statuses world0))
       (trace world0 ++ [HttpGet "OAuth practicum-token" (JNum 1000);
                         Log ModuleLogger DEBUG hw1_message;
                         BotSend bot1 (Some "42") hw1_message;
                         Log RootLogger DEBUG "Message sent";
                         Sleep 600])).
Proof.
  apply (X12_transition_iteration quoted endpoint_hw1 cfg1 bot1 (JNum 1000) world0
           response1 hw1 [] (JNum 2000) "hw1" "reviewing"
           "Работа взята на проверку ревьюером.").
  - reflexivity.
  - reflexivity.
  - reflexivity.
  - split; reflexivity.
  - vm_compute. reflexivity.
  - vm_compute. discriminate.
Defined.

Lemma X13_only_first_item_witness :
  main_iteration quoted endpoint_hw1 cfg1 bot1 (JNum 1000) world0
  = main_iteration quoted endpoint_hw1_more cfg1 bot1 (JNum 1000) world0.
Proof.
  apply (X13_only_first_item quoted endpoint_hw1 endpoint_hw1_more cfg1 bot1
           (JNum 1000) world0 response1 response1_more (JDict hw1) [] [JDict hw2]
           (JNum 2000));
    reflexivity.
Defined.

Lemma X14_get_api_answer_returns_iff_witness :
  get_api_answer quoted endpoint_hw1 cfg1 (JNum 1000) world0
  = (Ok (JDict response1),
     after world0 [HttpGet "OAuth practicum-token" (JNum 1000)]).
Proof.
  apply (proj2 (X14_get_api_answer_returns_iff quoted endpoint_hw1 cfg1 (JNum 1000)
                  world0 (JDict response1)
                  (after world0 [HttpGet "OAuth practicum-token" (JNum 1000)]))).
  split; reflexivity.
Defined.

Lemma X17_retry_same_from_date_witness :
  ∃ timestamp' w' (evs1 evs2 : list event),
    main_loop quoted [endpoint_500; endpoint_hw1] cfg1 bot1 (JNum 1000) world0
    = (Ok timestamp', w')
    ∧ trace w'
      = (trace world0 ++ HttpGet "OAuth practicum-token" (JNum 1000)
           :: evs1 ++ HttpGet "OAuth practicum-token" (JNum 1000) :: evs2)%list
    ∧ forallb (λ ev, negb (is_HttpGet ev)) evs1 = true
    ∧ forallb (λ ev, negb (is_HttpGet ev)) evs2 = true.
Proof.
  apply (X17_retry_same_from_date quoted endpoint_500 endpoint_hw1 cfg1 bot1
           (JNum 1000) world0 (TypeError catching_instance)
           (after world0 [HttpGet "OAuth practicum-token" (JNum 1000)])).
  vm_compute. reflexivity.
Defined.

Lemma X18_parse_status_unhashable_witness :
  parse_status (JDict hw_list_status) seen_hw1
  = (Raise (TypeError "unhashable type: 'list'"), seen_hw1).
Proof.
  apply (proj1 (X18_parse_status_unhashable hw_list_status (JStr "hw1")
                  (JList [JStr "reviewing"]) seen_hw1 eq_refl eq_refl)).
  reflexivity.
Defined.
